(** * The guess-number page of the example application

    A shallow embedding of [packages/example/pages/guess-number.tsx]: the
    [Game] component with its four event handlers ([onSignCertificate],
    [onGuess], [onReveal], [onReset]), its account effect and its render,
    and the [GuessNumber] page with its initialisation effect and render.

    Handlers are written once, as programs over two kinds of operations:
    synchronous actions (state setters, toaster calls, [randomHex]) and
    awaited calls into the SDKs (a promise that settles later).  Two
    interpreters give them meaning: [run] lets every awaited call settle at
    once with the answer of an environment, [dispatch] runs the component as
    the browser does, one event at a time, with suspended handlers resumed
    when their promise settles. *)

From Stdlib Require Import String Ascii List ZArith.
Import ListNotations.
Open Scope string_scope.

Set Implicit Arguments.

(** ** Foreign values *)

(** A thrown or rejected value; the handlers read its [message] only. *)
Record Error : Type := new_Error_msg { message : string }.

(** Objects of the SDKs that the page passes around without looking inside:
    each is identified by a handle. *)
Record ApiPromise : Type := { api_handle : nat }.
Record PhalaInstance : Type := { phala_handle : nat }.
Record Signer : Type := { signer_handle : nat }.
Record CertificateData : Type := { certificate_handle : nat }.
Record Unsubscribe : Type := { unsubscribe_handle : nat }.

(** The selected account ([atoms/account]); the page reads [address]. *)
Record Account : Type := { address : string }.

(** The status handed to [onStatus]; the page reads [isFinalized]. *)
Record Status : Type := { isFinalized : bool }.

Definition ToastKey : Type := nat.

(** A value as [toJSON()] returns it ([as any] in the source).  The fields
    of [JObj] are the own enumerable properties in [Object.keys] order. *)
#[local] Unset Elimination Schemes.
Inductive json (num : Type) : Type :=
| JUndefined
| JNull
| JBool (b : bool)
| JNum (n : num)
| JStr (s : string)
| JArr (items : list (json num))
| JObj (fields : list (string * json num)).
#[local] Set Elimination Schemes.

Arguments JUndefined {num}.
Arguments JNull {num}.
Arguments JBool {num} b.
Arguments JStr {num} s.

(** The type definitions given to [createApi]: an alias or built-in type
    name, a struct, or an [_enum] whose variants carry a type or [null]. *)
Inductive typedef : Type :=
| TName (t : string)
| TStruct (fields : list (string * string))
| TEnum (variants : list (string * option string)).

Record ApiOptions : Type := {
  endpoint : string;
  types : list (string * typedef)
}.

(** The closure passed as [onStatus] to [phala.command], with the variable
    it captures. *)
Inductive StatusCallback : Type :=
| OnResetStatus (toastKey : ToastKey).

Record CommandArgs : Type := {
  cmd_account : Account;
  cmd_contractId : Z;
  cmd_payload : string;
  cmd_signer : Signer;
  cmd_onStatus : StatusCallback
}.

(** Functions of [@polkadot/util], [@polkadot/api] and the language that the
    page calls and that lie outside this repository. *)
Record Externals : Type := {
  jsnumber : Type;
  (** [false] for [0], [-0] and [NaN] *)
  number_truthy : jsnumber -> bool;
  (** [Number(s)] *)
  Number : string -> jsnumber;
  (** [numberToHex(value, bitLength)] *)
  numberToHex : Z -> Z -> string;
  hexAddPrefix : string -> string;
  (** [api.createType(name, value).toHex()] for a value that fits the type
      named *)
  createType_toHex : ApiPromise -> string -> json jsnumber -> string;
  (** what [api.createType(name, value)] throws for a value that does not *)
  createType_Error : string -> json jsnumber -> Error;
  (** [api.createType(name, hex).toJSON()], which throws on bytes that do
      not decode *)
  createType_toJSON : ApiPromise -> string -> string -> Error + json jsnumber;
  (** the string a value becomes inside a template literal *)
  template_string : json jsnumber -> string;
  (** the TypeError of destructuring [undefined] or [null] *)
  destructure_TypeError : Error;
  (** [process.env.NEXT_PUBLIC_WS_ENDPOINT] *)
  NEXT_PUBLIC_WS_ENDPOINT : string
}.

(** ** Operations *)

Inductive settled (R : Type) : Type :=
| Resolved (v : R)
| Rejected (e : Error).

Arguments Rejected {R} e.

(** Calls that return a promise. *)
Inductive call : Type -> Type :=
| GetSigner (account : Account) : call Signer
| SignCertificate (api : ApiPromise) (address : string) (signer : Signer)
  : call CertificateData
| Query (phala : PhalaInstance) (encodedQuery : string)
        (certificateData : CertificateData) : call string
| Command (phala : PhalaInstance) (args : CommandArgs) : call Unsubscribe
| CreateApi (options : ApiOptions) : call ApiPromise
| CreatePhala (api : ApiPromise) (baseURL : string) : call PhalaInstance.

(** Synchronous operations on the component state, the toaster, the event
    and the random source. *)
Inductive action : Type -> Type :=
| PreventDefault : action unit
| SetNumber (s : string) : action unit
| SetCertificateData (c : option CertificateData) : action unit
| SetSignCertificateLoading (b : bool) : action unit
| SetGuessLoading (b : bool) : action unit
| SetUnsubscribeRef (u : Unsubscribe) : action unit
| SetApi (a : ApiPromise) : action unit
| SetPhala (p : PhalaInstance) : action unit
| ToasterPositive (children : string) : action unit
| ToasterNegative (children : string) : action unit
| ToasterInfo (children : option string) (autoHideDuration : option Z)
  : action ToastKey
| ToasterUpdate (key : ToastKey) (children : string) (autoHideDuration : Z)
  : action unit
| ToasterClear (key : ToastKey) : action unit
| RandomHex (n : Z) : action string.

(** ** Programs *)

Inductive prog (A : Type) : Type :=
| Ret (a : A)
| Throw (e : Error)
| Do (R : Type) (a : action R) (k : R -> prog A)
| Await (R : Type) (c : call R) (k : settled R -> prog A).

Arguments Throw {A} e.

Fixpoint bind {A B : Type} (p : prog A) (f : A -> prog B) : prog B :=
  match p with
  | Ret a => f a
  | Throw e => Throw e
  | Do a k => Do a (fun r => bind (k r) f)
  | Await c k => Await c (fun r => bind (k r) f)
  end.

(** [try { p } catch (err) { h err }], and [promise.catch(h)]. *)
Fixpoint catch_ {A : Type} (p : prog A) (h : Error -> prog A) : prog A :=
  match p with
  | Ret a => Ret a
  | Throw e => h e
  | Do a k => Do a (fun r => catch_ (k r) h)
  | Await c k => Await c (fun r => catch_ (k r) h)
  end.

(** [promise.finally(g)]: [g] runs on both paths, the settlement of the
    promise passes through. *)
Fixpoint finally_ {A : Type} (p : prog A) (g : prog unit) : prog A :=
  match p with
  | Ret a => bind g (fun _ => Ret a)
  | Throw e => bind g (fun _ => Throw e)
  | Do a k => Do a (fun r => finally_ (k r) g)
  | Await c k => Await c (fun r => finally_ (k r) g)
  end.

Definition do_ {R : Type} (a : action R) : prog R := Do a (fun r => Ret r).

(** [await c], and [c.then(...)]: a rejection becomes a throw. *)
Definition await {R : Type} (c : call R) : prog R :=
  Await c (fun r => match r with
                    | Resolved v => Ret v
                    | Rejected e => Throw e
                    end).

Definition lift {A : Type} (r : Error + A) : prog A :=
  match r with
  | inl e => Throw e
  | inr a => Ret a
  end.

Declare Scope prog_scope.
Delimit Scope prog_scope with prog.
Notation "x <- p ;; q" := (bind p (fun x => q))
  (at level 61, p at next level, right associativity) : prog_scope.
Notation "p ;; q" := (bind p (fun _ => q))
  (at level 61, right associativity) : prog_scope.
Open Scope prog_scope.

(** ** The types given to [createApi] *)

(** The [types] of lines 265-297. *)
Definition contract_types : list (string * typedef) :=
  [("AccountId", TName "H256");
   ("RandomNumber", TName "u32");
   ("ContractOwner", TStruct [("owner", "AccountId")]);
   ("Guess", TStruct [("guess_number", "RandomNumber")]);
   ("GuessResult",
    TEnum [("TooLarge", None); ("ToSmall", None); ("Correct", None)]);
   ("GuessError",
    TEnum [("OriginUnavailable", None); ("NotAuthorized", None)]);
   ("GuessNumberRequestData",
    TEnum [("QueryOwner", None); ("Guess", Some "Guess");
           ("PeekRandomNumber", None)]);
   ("GuessNumberResponseData",
    TEnum [("Owner", Some "AccountId"); ("GuessResult", Some "GuessResult");
           ("RandomNumber", Some "RandomNumber")]);
   ("GuessNumberRequest",
    TStruct [("head", "ContractQueryHead");
             ("data", "GuessNumberRequestData")]);
   ("GuessNumberResponse",
    TStruct [("nonce", "[u8; 32]");
             ("result", "Result<GuessNumberResponseData>")]);
   ("GuessNumberCommand",
    TEnum [("NextRandom", None); ("SetOwner", Some "ContractOwner")])].

Fixpoint lookup_type (name : string) (l : list (string * typedef))
  : option typedef :=
  match l with
  | [] => None
  | (k, d) :: rest => if String.eqb k name then Some d else lookup_type name rest
  end.

(** ** What [createType] accepts *)

Definition lower_ascii (c : ascii) : ascii :=
  let n := nat_of_ascii c in
  if andb (Nat.leb 65 n) (Nat.leb n 90) then ascii_of_nat (n + 32) else c.

(** [s.toLowerCase()] on the letters A to Z. *)
Fixpoint lower (s : string) : string :=
  match s with
  | EmptyString => EmptyString
  | String c rest => String (lower_ascii c) (lower rest)
  end.

(** An enum is created from an object by its first key, which has to be
    the name of a variant, upper and lower case apart. *)
Definition names_variant (variants : list (string * option string))
           (key : string) : bool :=
  existsb (fun v => String.eqb (lower (fst v)) (lower key)) variants.

(** ** The language's own operations on decoded values *)

Section Game.

Variable X : Externals.

Definition value : Type := json (jsnumber X).

(** [if (v)]: the falsy values are [undefined], [null], [false], [0], [NaN]
    and the empty string. *)
Definition truthy (v : value) : bool :=
  match v with
  | JUndefined | JNull => false
  | JBool b => b
  | JNum n => number_truthy X n
  | JStr s => negb (String.eqb s "")
  | JArr _ | JObj _ => true
  end.

(** [Object.keys(v)[0]] for a [v] that is neither [undefined] nor [null]:
    the first property of an object, index ["0"] of a non-empty array or
    string, and [undefined] where there is no key. *)
Definition first_key (v : value) : option string :=
  match v with
  | JObj ((k, _) :: _) => Some k
  | JArr (_ :: _) => Some "0"
  | JStr (String _ _) => Some "0"
  | _ => None
  end.

Fixpoint lookup_field (name : string) (fields : list (string * value))
  : value :=
  match fields with
  | [] => JUndefined
  | (k, v) :: rest => if String.eqb k name then v else lookup_field name rest
  end.

(** [v.name] for the property names read on this page ([result], [ok],
    [err], [randomNumber]), none of which a primitive or an array has. *)
Definition get_prop (v : value) (name : string) : value :=
  match v with
  | JObj fields => lookup_field name fields
  | _ => JUndefined
  end.

(** [k === s] for a string literal [s]. *)
Definition strict_eq (k : option string) (s : string) : bool :=
  match k with
  | Some k' => String.eqb k' s
  | None => false
  end.

(** [new Error(k)]: the message of [new Error(undefined)] is empty. *)
Definition new_Error (k : option string) : Error :=
  new_Error_msg (match k with Some s => s | None => "" end).

(** [const {result: {ok, err}} = v]: destructuring [undefined] or [null],
    at either level, throws. *)
Definition destructure_result (v : value) : Error + (value * value) :=
  match v with
  | JUndefined | JNull => inl (destructure_TypeError X)
  | _ =>
      match get_prop v "result" with
      | JUndefined | JNull => inl (destructure_TypeError X)
      | result => inr (get_prop result "ok", get_prop result "err")
      end
  end.

(** ** Encoding against the declared types *)

(** Whether a value given for the type [name] names a variant: an object
    given for a declared enum has to, by its first key; what is given for
    another type passes. *)
Definition enum_fits (name : string) (v : value) : bool :=
  match lookup_type name contract_types with
  | Some (TEnum variants) =>
      match v with
      | JObj ((k, _) :: _) => names_variant variants k
      | _ => true
      end
  | _ => true
  end.

(** Whether a value fits the type [name] of the declared types: an enum by
    its key, a struct when each of its fields does.  The conversion of the
    numbers inside is taken to succeed, the input of the page admitting
    only the integers from 0 to 4294967295. *)
Definition fits (name : string) (v : value) : bool :=
  match lookup_type name contract_types with
  | Some (TStruct fields) =>
      forallb (fun f => enum_fits (snd f) (get_prop v (fst f))) fields
  | _ => enum_fits name v
  end.

(** [api.createType(name, v).toHex()], for the api created by the page:
    [createType] throws when the value does not fit the type. *)
Definition createType (api : ApiPromise) (name : string) (v : value)
  : Error + string :=
  if fits name v then inr (createType_toHex X api name v)
  else inl (createType_Error X name v).

(** ** The Game component *)

Definition baseURL : string := "/".
Definition CONTRACT_ID : Z := 100.

Record GameProps : Type := {
  api : ApiPromise;
  phala : PhalaInstance
}.

(** What one render of [Game] sees: the account atom, the four state
    variables and the [unsubscribe] ref.  A handler reads the values of the
    render that created it. *)
Record GameState : Type := {
  account : option Account;
  number : string;
  certificateData : option CertificateData;
  signCertificateLoading : bool;
  guessLoading : bool;
  unsubscribe : option Unsubscribe
}.

(** The effect on [[account]] (lines 46-48).  The cleanup of the effect on
    [[api]] (lines 38-44) runs when the component unmounts, which is not
    part of this model. *)
Definition account_effect : prog unit :=
  do_ (SetCertificateData None).

Definition onSignCertificate (p : GameProps) (s : GameState) : prog unit :=
  match account s with
  | Some acc =>
      do_ (SetSignCertificateLoading true) ;;
      catch_
        (signer <- await (GetSigner acc) ;;
         cert <- await (SignCertificate (api p) (address acc) signer) ;;
         do_ (SetCertificateData (Some cert)) ;;
         do_ (ToasterPositive "Certificate signed"))
        (fun err => do_ (ToasterNegative (message err))) ;;
      do_ (SetSignCertificateLoading false)
  | None => Ret tt
  end.

(** The object literal encoded by [onGuess]. *)
Definition guess_request (random : string) (number : string) : value :=
  JObj [("head", JObj [("id", JStr (numberToHex X CONTRACT_ID 256));
                       ("nonce", JStr (hexAddPrefix X random))]);
        ("data", JObj [("guess",
                        JObj [("guess_number", JNum (Number X number))])])].

(** The object literal encoded by [onReveal]. *)
Definition reveal_request (random : string) : value :=
  JObj [("head", JObj [("id", JStr (numberToHex X CONTRACT_ID 256));
                       ("nonce", JStr (hexAddPrefix X random))]);
        ("data", JObj [("reveal", JNull)])].

(** [const {result: {ok, err}} =
      api.createType('GuessNumberResponse', hexAddPrefix(data)).toJSON()] *)
Definition decode_response (p : GameProps) (data : string)
  : Error + (value * value) :=
  match createType_toJSON X (api p) "GuessNumberResponse"
                          (hexAddPrefix X data) with
  | inl e => inl e
  | inr json => destructure_result json
  end.

(** The [.then] callback of [onGuess]. *)
Definition onGuess_then (p : GameProps) (data : string) : prog unit :=
  r <- lift (decode_response p data) ;;
  let '(ok, err) := r in
  (if truthy ok then
     let guessResult := first_key ok in
     if strict_eq guessResult "correct"
     then do_ (ToasterPositive "Correct! Number has been reset") ;;
          do_ (SetNumber "")
     else _ <- do_ (ToasterInfo guessResult None) ;; Ret tt
   else Ret tt) ;;
  if truthy err then Throw (new_Error (first_key err)) else Ret tt.

(** [encodedQuery] of [onGuess], once [createType] has returned. *)
Definition guess_encodedQuery (p : GameProps) (random : string)
           (number : string) : string :=
  createType_toHex X (api p) "GuessNumberRequest"
                   (guess_request random number).

Definition onGuess (p : GameProps) (s : GameState) : prog unit :=
  do_ PreventDefault ;;
  match certificateData s with
  | None => Ret tt
  | Some cert =>
      do_ (SetGuessLoading true) ;;
      random <- do_ (RandomHex 32) ;;
      encodedQuery <- lift (createType (api p) "GuessNumberRequest"
                                       (guess_request random (number s))) ;;
      finally_
        (catch_
           (data <- await (Query (phala p) encodedQuery cert) ;;
            onGuess_then p data)
           (fun err => do_ (ToasterNegative (message err))))
        (do_ (SetGuessLoading false))
  end.

(** The [.then] callback of [onReveal]. *)
Definition onReveal_then (p : GameProps) (toastKey : ToastKey)
           (data : string) : prog unit :=
  r <- lift (decode_response p data) ;;
  let '(ok, err) := r in
  (if truthy ok then
     let revealResult := get_prop ok "randomNumber" in
     do_ (ToasterUpdate toastKey
            ("Current number is " ++ template_string X revealResult) 3000)
   else Ret tt) ;;
  if truthy err then Throw (new_Error (first_key err)) else Ret tt.

(** [createType] is called for [encodedQuery] before [toaster.info] and
    [phala.query] (lines 124-132). *)
Definition onReveal (p : GameProps) (s : GameState) : prog unit :=
  match certificateData s with
  | None => Ret tt
  | Some cert =>
      random <- do_ (RandomHex 32) ;;
      encodedQuery <- lift (createType (api p) "GuessNumberRequest"
                                       (reveal_request random)) ;;
      toastKey <- do_ (ToasterInfo (Some "Cheating…") (Some 0%Z)) ;;
      catch_
        (data <- await (Query (phala p) encodedQuery cert) ;;
         onReveal_then p toastKey data)
        (fun err =>
           do_ (ToasterClear toastKey) ;;
           do_ (ToasterNegative (message err)))
  end.

(** The [onStatus] closure of [onReset]. *)
Definition onStatus (cb : StatusCallback) (status : Status) : prog unit :=
  match cb with
  | OnResetStatus toastKey =>
      if isFinalized status
      then do_ (ToasterUpdate toastKey "Number has been reset" 3000)
      else Ret tt
  end.

(** The argument of [phala.command] in [onReset], once [createType] has
    returned. *)
Definition reset_command (p : GameProps) (acc : Account) (signer : Signer)
           (toastKey : ToastKey) : CommandArgs :=
  {| cmd_account := acc;
     cmd_contractId := CONTRACT_ID;
     cmd_payload := createType_toHex X (api p) "GuessNumberCommand"
                                     (JObj [("NextRandom", JNull)]);
     cmd_signer := signer;
     cmd_onStatus := OnResetStatus toastKey |}.

Definition onReset (p : GameProps) (s : GameState) : prog unit :=
  match account s with
  | None => Ret tt
  | Some acc =>
      toastKey <- do_ (ToasterInfo (Some "Resetting…") (Some 0%Z)) ;;
      signer <- await (GetSigner acc) ;;
      payload <- lift (createType (api p) "GuessNumberCommand"
                                  (JObj [("NextRandom", JNull)])) ;;
      _unsubscribe <-
        catch_
          (u <- await (Command (phala p)
                         {| cmd_account := acc;
                            cmd_contractId := CONTRACT_ID;
                            cmd_payload := payload;
                            cmd_signer := signer;
                            cmd_onStatus := OnResetStatus toastKey |}) ;;
           Ret (Some u))
          (fun err =>
             do_ (ToasterClear toastKey) ;;
             do_ (ToasterNegative (message err)) ;;
             Ret None) ;;
      match _unsubscribe with
      | Some u => do_ (SetUnsubscribeRef u)
      | None => Ret tt
      end
  end.

(** What [Game] returns, as far as it depends on the state. *)
Record GameView : Type := {
  current : nat;
  sign_isLoading : bool;
  sign_disabled : bool;
  input_value : string;
  guess_disabled : bool;
  guess_isLoading : bool
}.

Definition Game_render (s : GameState) : GameView :=
  {| current := match certificateData s with Some _ => 1 | None => 0 end;
     sign_isLoading := signCertificateLoading s;
     sign_disabled := match account s with Some _ => false | None => true end;
     input_value := number s;
     guess_disabled := String.eqb (number s) "";
     guess_isLoading := guessLoading s |}.

(** ** The GuessNumber page *)

Record PageState : Type := {
  page_api : option ApiPromise;
  page_phala : option PhalaInstance
}.

Definition createApi_options : ApiOptions :=
  {| endpoint := NEXT_PUBLIC_WS_ENDPOINT X; types := contract_types |}.

(** The effect run once when the page mounts (lines 262-308). *)
Definition GuessNumber_effect : prog unit :=
  catch_
    (api <- await (CreateApi createApi_options) ;;
     do_ (SetApi api) ;;
     phala <- await (CreatePhala api baseURL) ;;
     do_ (SetPhala phala))
    (fun err => do_ (ToasterNegative (message err))).

(** What the page returns: [Game] with its props, or the spinner with its
    label. *)
Inductive PageView : Type :=
| ViewGame (p : GameProps)
| ViewSpinner (label : string).

Definition GuessNumber_render (s : PageState) : PageView :=
  match page_api s, page_phala s with
  | Some a, Some p => ViewGame {| api := a; phala := p |}
  | _, _ => ViewSpinner "Initializing"
  end.

End Game.

(** ** The state the operations act on *)

(** The state of the mounted components, with the number of random strings
    drawn and of toasts created so far. *)
Record World : Type := {
  game : GameState;
  page : PageState;
  draws : nat;
  keys : nat
}.

(** What lies outside the page: how each call settles, and the random
    source ([random_source i n] is the [i]-th draw, of [n] bytes). *)
Record Env : Type := {
  settle : forall R : Type, call R -> settled R;
  random_source : nat -> Z -> string
}.

Definition with_game (f : GameState -> GameState) (w : World) : World :=
  {| game := f (game w); page := page w; draws := draws w; keys := keys w |}.

Definition with_page (f : PageState -> PageState) (w : World) : World :=
  {| game := game w; page := f (page w); draws := draws w; keys := keys w |}.

Definition next_key (w : World) : World :=
  {| game := game w; page := page w; draws := draws w; keys := S (keys w) |}.

Definition next_draw (w : World) : World :=
  {| game := game w; page := page w; draws := S (draws w); keys := keys w |}.

Definition set_account (a : option Account) (s : GameState) : GameState :=
  {| account := a; number := number s;
     certificateData := certificateData s;
     signCertificateLoading := signCertificateLoading s;
     guessLoading := guessLoading s; unsubscribe := unsubscribe s |}.

Definition set_number (n : string) (s : GameState) : GameState :=
  {| account := account s; number := n;
     certificateData := certificateData s;
     signCertificateLoading := signCertificateLoading s;
     guessLoading := guessLoading s; unsubscribe := unsubscribe s |}.

Definition set_certificateData (c : option CertificateData) (s : GameState)
  : GameState :=
  {| account := account s; number := number s;
     certificateData := c;
     signCertificateLoading := signCertificateLoading s;
     guessLoading := guessLoading s; unsubscribe := unsubscribe s |}.

Definition set_signCertificateLoading (b : bool) (s : GameState)
  : GameState :=
  {| account := account s; number := number s;
     certificateData := certificateData s;
     signCertificateLoading := b;
     guessLoading := guessLoading s; unsubscribe := unsubscribe s |}.

Definition set_guessLoading (b : bool) (s : GameState) : GameState :=
  {| account := account s; number := number s;
     certificateData := certificateData s;
     signCertificateLoading := signCertificateLoading s;
     guessLoading := b; unsubscribe := unsubscribe s |}.

Definition set_unsubscribe (u : Unsubscribe) (s : GameState) : GameState :=
  {| account := account s; number := number s;
     certificateData := certificateData s;
     signCertificateLoading := signCertificateLoading s;
     guessLoading := guessLoading s; unsubscribe := Some u |}.

Definition set_api (a : ApiPromise) (s : PageState) : PageState :=
  {| page_api := Some a; page_phala := page_phala s |}.

Definition set_phala (p : PhalaInstance) (s : PageState) : PageState :=
  {| page_api := page_api s; page_phala := Some p |}.

(** One entry of the record of what a program did. *)
Inductive entry : Type :=
| Did (R : Type) (a : action R)
| Called (R : Type) (c : call R).

Section Semantics.

Variable env : Env.

(** The effect of one action and the value it returns.  Every toast shown
    gets a fresh key; [toaster.info] returns it. *)
Definition perform {R : Type} (a : action R) (w : World) : R * World :=
  match a in action T return T * World with
  | PreventDefault => (tt, w)
  | SetNumber s => (tt, with_game (set_number s) w)
  | SetCertificateData c => (tt, with_game (set_certificateData c) w)
  | SetSignCertificateLoading b =>
      (tt, with_game (set_signCertificateLoading b) w)
  | SetGuessLoading b => (tt, with_game (set_guessLoading b) w)
  | SetUnsubscribeRef u => (tt, with_game (set_unsubscribe u) w)
  | SetApi a => (tt, with_page (set_api a) w)
  | SetPhala p => (tt, with_page (set_phala p) w)
  | ToasterPositive _ => (tt, next_key w)
  | ToasterNegative _ => (tt, next_key w)
  | ToasterInfo _ _ => (keys w, next_key w)
  | ToasterUpdate _ _ _ => (tt, w)
  | ToasterClear _ => (tt, w)
  | RandomHex n => (random_source env (draws w) n, next_draw w)
  end.

(** How a program ends: normally, or with an error nobody caught. *)
Definition completion (A : Type) : Type := (Error + A)%type.

(** A handler run with every awaited promise settling as [env] says: the
    completion, the world left behind and what was done, in order. *)
Fixpoint run {A : Type} (p : prog A) (w : World)
  : completion A * World * list entry :=
  match p with
  | Ret a => (inr a, w, [])
  | Throw e => (inl e, w, [])
  | Do a k =>
      let '(r, w1) := perform a w in
      let '(c, w2, t) := run (k r) w1 in
      (c, w2, Did a :: t)
  | Await c k =>
      let '(c', w2, t) := run (k (settle env c)) w in
      (c', w2, Called c :: t)
  end.

Definition outcome {A : Type} (p : prog A) (w : World) : completion A :=
  fst (fst (run p w)).

Definition final {A : Type} (p : prog A) (w : World) : World :=
  snd (fst (run p w)).

Definition trace {A : Type} (p : prog A) (w : World) : list entry :=
  snd (run p w).

(** *** The page in the browser: one event at a time *)

(** A handler waiting for a promise. *)
Inductive suspended : Type :=
| Suspended (R : Type) (c : call R) (k : settled R -> prog unit).

Record Browser : Type := {
  world : World;
  pending : list suspended;
  log : list entry;
  unhandled : list Error
}.

(** Runs a program up to its next [await], or to its end. *)
Fixpoint advance (p : prog unit) (b : Browser) : Browser :=
  match p with
  | Ret _ => b
  | Throw e =>
      {| world := world b; pending := pending b; log := log b;
         unhandled := unhandled b ++ [e] |}
  | Do a k =>
      let '(r, w1) := perform a (world b) in
      advance (k r)
        {| world := w1; pending := pending b; log := log b ++ [Did a];
           unhandled := unhandled b |}
  | Await c k =>
      {| world := world b; pending := pending b ++ [Suspended c k];
         log := log b ++ [Called c]; unhandled := unhandled b |}
  end.

Fixpoint take_nth {A : Type} (i : nat) (l : list A) : option (A * list A) :=
  match l, i with
  | [], _ => None
  | x :: rest, O => Some (x, rest)
  | x :: rest, S j =>
      match take_nth j rest with
      | Some (y, rest') => Some (y, x :: rest')
      | None => None
      end
  end.

Inductive event : Type :=
| AccountChanged (a : option Account)
| InputChanged (s : string)
| ClickSignCertificate
| SubmitGuess
| ClickReveal
| ClickReset
| Settles (i : nat).

Variable X : Externals.
Variable props : GameProps.

(** One turn of the event loop on the mounted [Game].  A handler started by
    a click reads the state of the latest render; a change of the account
    atom re-renders and runs the effect on [[account]]; [Settles i] lets the
    [i]-th pending promise settle and resumes the handler waiting for it. *)
Definition dispatch (ev : event) (b : Browser) : Browser :=
  match ev with
  | AccountChanged a =>
      advance account_effect
        {| world := with_game (set_account a) (world b);
           pending := pending b; log := log b; unhandled := unhandled b |}
  | InputChanged s =>
      advance (do_ (SetNumber s)) b
  | ClickSignCertificate =>
      advance (onSignCertificate props (game (world b))) b
  | SubmitGuess => advance (onGuess X props (game (world b))) b
  | ClickReveal => advance (onReveal X props (game (world b))) b
  | ClickReset => advance (onReset X props (game (world b))) b
  | Settles i =>
      match take_nth i (pending b) with
      | Some (Suspended c k, rest) =>
          advance (k (settle env c))
            {| world := world b; pending := rest; log := log b;
               unhandled := unhandled b |}
      | None => b
      end
  end.

Definition dispatch_all (evs : list event) (b : Browser) : Browser :=
  fold_left (fun b' ev => dispatch ev b') evs b.

End Semantics.

(** ** Reading a trace *)

Inductive toast : Type :=
| Positive (children : string)
| Negative (children : string)
| Info (children : option string).

(** The toasts shown, in order. *)
Fixpoint shown (t : list entry) : list toast :=
  match t with
  | [] => []
  | Did (ToasterPositive s) :: rest => Positive s :: shown rest
  | Did (ToasterNegative s) :: rest => Negative s :: shown rest
  | Did (ToasterInfo s _) :: rest => Info s :: shown rest
  | _ :: rest => shown rest
  end.

(** The queries sent through [phala.query], in order. *)
Fixpoint queries (t : list entry)
  : list (PhalaInstance * string * CertificateData) :=
  match t with
  | [] => []
  | Called (Query p q c) :: rest => (p, q, c) :: queries rest
  | _ :: rest => queries rest
  end.

(** The commands sent through [phala.command], in order. *)
Fixpoint commands (t : list entry) : list (PhalaInstance * CommandArgs) :=
  match t with
  | [] => []
  | Called (Command p a) :: rest => (p, a) :: commands rest
  | _ :: rest => commands rest
  end.

(** All calls made, in order. *)
Fixpoint calls (t : list entry) : list entry :=
  match t with
  | [] => []
  | Called c :: rest => Called c :: calls rest
  | Did _ :: rest => calls rest
  end.

(** The byte counts asked of [randomHex], in order. *)
Fixpoint random_draws (t : list entry) : list Z :=
  match t with
  | [] => []
  | Did (RandomHex n) :: rest => n :: random_draws rest
  | _ :: rest => random_draws rest
  end.

(** ** A concrete setting

    Stand-ins for the functions outside the repository and for the network,
    on which the handlers can be evaluated. *)

Definition hex_char (d : Z) : Ascii.ascii :=
  match String.get (Z.to_nat d) "0123456789abcdef" with
  | Some c => c
  | None => "0"%char
  end.

Fixpoint hex_digits (width : nat) (v : Z) (acc : string) : string :=
  match width with
  | O => acc
  | S n => hex_digits n (v / 16) (String (hex_char (v mod 16)) acc)
  end.

Definition example_numberToHex (v bitLength : Z) : string :=
  "0x" ++ hex_digits (Z.to_nat (bitLength / 4)) v "".

Definition example_hexAddPrefix (s : string) : string :=
  if String.prefix "0x" s then s
  else "0x" ++ (if Nat.odd (String.length s) then "0" else "") ++ s.

Fixpoint example_digits (s : string) (acc : Z) : Z :=
  match s with
  | EmptyString => acc
  | String c rest =>
      example_digits rest (10 * acc + (Z.of_nat (Ascii.nat_of_ascii c) - 48))
  end.

(** Stands for [toHex]: the fields of a value, written out. *)
Fixpoint example_show (v : json Z) : string :=
  match v with
  | JUndefined => "undefined"
  | JNull => "null"
  | JBool b => if b then "true" else "false"
  | JNum n => example_numberToHex n 32
  | JStr s => s
  | JArr items => "[" ++ String.concat "," (map example_show items) ++ "]"
  | JObj fields =>
      "{" ++ String.concat ","
               (map (fun kv => fst kv ++ ":" ++ example_show (snd kv)) fields)
          ++ "}"
  end.

Definition example_response (result : json Z) : json Z :=
  JObj [("nonce", JStr "0x00"); ("result", result)].

(** Stands for the decoder: four responses, and bytes that do not decode. *)
Definition example_toJSON (data : string) : Error + json Z :=
  if String.eqb data "0xc0" then
    inr (example_response (JObj [("ok", JObj [("correct", JNull)])]))
  else if String.eqb data "0xc1" then
    inr (example_response (JObj [("ok", JObj [("tooLarge", JNull)])]))
  else if String.eqb data "0xee" then
    inr (example_response (JObj [("err", JObj [("notAuthorized", JNull)])]))
  else if String.eqb data "0x2a" then
    inr (example_response (JObj [("ok", JObj [("randomNumber", JNum 42%Z)])]))
  else inl (new_Error_msg "Unable to decode").

Definition example_externals : Externals :=
  {| jsnumber := Z;
     number_truthy := fun n => negb (Z.eqb n 0);
     Number := fun s => example_digits s 0;
     numberToHex := example_numberToHex;
     hexAddPrefix := example_hexAddPrefix;
     createType_toHex := fun _ name v => name ++ example_show v;
     createType_Error := fun name v =>
       new_Error_msg ("createType(" ++ name ++ "): " ++ example_show v);
     createType_toJSON := fun _ _ data => example_toJSON data;
     template_string := example_show;
     destructure_TypeError :=
       new_Error_msg "Cannot destructure property of undefined";
     NEXT_PUBLIC_WS_ENDPOINT := "ws://localhost:9944" |}.

(** What the network does: which calls fail, and what a query returns. *)
Record Network : Type := {
  getSigner_fails : option Error;
  signCertificate_fails : option Error;
  query_answer : settled string;
  command_fails : option Error;
  createApi_fails : option Error;
  createPhala_fails : option Error
}.

Definition answer {R : Type} (fails : option Error) (v : R) : settled R :=
  match fails with
  | Some e => Rejected e
  | None => Resolved v
  end.

(** The signer of an account and the certificate signed with it carry the
    length of the account's address as their handle. *)
Definition example_env (n : Network) : Env :=
  {| settle := fun R c =>
       match c in call T return settled T with
       | GetSigner a =>
           answer (getSigner_fails n)
                  {| signer_handle := String.length (address a) |}
       | SignCertificate _ _ signer =>
           answer (signCertificate_fails n)
                  {| certificate_handle := signer_handle signer |}
       | Query _ _ _ => query_answer n
       | Command _ _ => answer (command_fails n) {| unsubscribe_handle := 1 |}
       | CreateApi _ => answer (createApi_fails n) {| api_handle := 1 |}
       | CreatePhala a _ =>
           answer (createPhala_fails n) {| phala_handle := api_handle a |}
       end;
     random_source := fun i n =>
       hex_digits (Z.to_nat (2 * n)) (Z.of_nat i + 10) "" |}.

Definition no_answer : settled string :=
  Rejected (new_Error_msg "Network Error").

Definition network_up (q : settled string) : Network :=
  {| getSigner_fails := None; signCertificate_fails := None;
     query_answer := q; command_fails := None;
     createApi_fails := None; createPhala_fails := None |}.

Definition example_props : GameProps :=
  {| api := {| api_handle := 1 |}; phala := {| phala_handle := 1 |} |}.

Definition alice : Account := {| address := "5Alice" |}.
Definition bob : Account := {| address := "5Bob" |}.

(** The state of [Game] when it mounts. *)
Definition initial_game (a : option Account) : GameState :=
  {| account := a; number := ""; certificateData := None;
     signCertificateLoading := false; guessLoading := false;
     unsubscribe := None |}.

(** The state of [GuessNumber] when it mounts. *)
Definition initial_page : PageState :=
  {| page_api := None; page_phala := None |}.

(** A render with a certificate held and a number typed. *)
Definition playing (a : Account) (c : CertificateData) (n : string)
  : GameState :=
  {| account := Some a; number := n; certificateData := Some c;
     signCertificateLoading := false; guessLoading := false;
     unsubscribe := None |}.

Definition initial_world (a : option Account) : World :=
  {| game := initial_game a; page := initial_page; draws := 0; keys := 0 |}.

Definition initial_browser (a : option Account) : Browser :=
  {| world := initial_world a; pending := []; log := []; unhandled := [] |}.

Definition alice_certificate : CertificateData :=
  {| certificate_handle := 6 |}.

Definition alice_playing : GameState := playing alice alice_certificate "42".

Definition alice_world : World :=
  {| game := alice_playing; page := initial_page; draws := 0; keys := 0 |}.

Definition signer_missing : Network :=
  {| getSigner_fails := Some (new_Error_msg "No signer");
     signCertificate_fails := None; query_answer := Resolved "c1";
     command_fails := None; createApi_fails := None;
     createPhala_fails := None |}.

Definition signature_refused : Network :=
  {| getSigner_fails := None;
     signCertificate_fails := Some (new_Error_msg "Cancelled");
     query_answer := Resolved "c1"; command_fails := None;
     createApi_fails := None; createPhala_fails := None |}.

Definition node_down : Network :=
  {| getSigner_fails := None; signCertificate_fails := None;
     query_answer := no_answer; command_fails := None;
     createApi_fails := Some (new_Error_msg "Disconnected");
     createPhala_fails := None |}.

Definition sdk_down : Network :=
  {| getSigner_fails := None; signCertificate_fails := None;
     query_answer := no_answer; command_fails := None;
     createApi_fails := None;
     createPhala_fails := Some (new_Error_msg "Unreachable") |}.

(** ** Responses under the declared types *)

(** The variants of [GuessResult] (lines 270-272). *)
Inductive GuessResult : Type :=
| TooLarge
| ToSmall
| Correct.

(** A value of [GuessNumberResponseData] (lines 279-285). *)
Inductive GuessNumberResponseData (num : Type) : Type :=
| Owner (accountId : string)
| GuessResultData (r : GuessResult)
| RandomNumber (n : num).

Arguments Owner {num} accountId.
Arguments GuessResultData {num} r.

Definition GuessResult_name (r : GuessResult) : string :=
  match r with
  | TooLarge => "TooLarge"
  | ToSmall => "ToSmall"
  | Correct => "Correct"
  end.

(** The name of a variant as [toJSON()] writes it as a key: with its first
    letter lowered. *)
Definition variant_key (name : string) : string :=
  match name with
  | EmptyString => EmptyString
  | String c rest => String (lower_ascii c) rest
  end.

(** [toJSON()] of a value of [GuessNumberResponseData]: an object whose one
    key is the variant; under it a [GuessResult], an enum whose variants
    carry nothing, is the name of its variant. *)
Definition ResponseData_toJSON {num : Type}
           (d : GuessNumberResponseData num) : json num :=
  match d with
  | Owner a => JObj [(variant_key "Owner", JStr a)]
  | GuessResultData r =>
      JObj [(variant_key "GuessResult", JStr (GuessResult_name r))]
  | RandomNumber n => JObj [(variant_key "RandomNumber", JNum n)]
  end.

(** [toJSON()] of a [GuessNumberResponse] (lines 290-293) whose [result] is
    [Ok]. *)
Definition ok_response {num : Type} (nonce : string)
           (d : GuessNumberResponseData num) : json num :=
  JObj [("nonce", JStr nonce);
        ("result", JObj [("ok", ResponseData_toJSON d)])].

(** A decoder that renders three answers as the declared types do. *)
Definition declared_toJSON (data : string) : Error + json Z :=
  if String.eqb data "0xc0" then
    inr (ok_response "0x00" (GuessResultData Correct))
  else if String.eqb data "0xc1" then
    inr (ok_response "0x00" (GuessResultData TooLarge))
  else if String.eqb data "0x2a" then
    inr (ok_response "0x00" (RandomNumber 42%Z))
  else inl (new_Error_msg "Unable to decode").

Definition declared_externals : Externals :=
  {| jsnumber := Z;
     number_truthy := number_truthy example_externals;
     Number := Number example_externals;
     numberToHex := numberToHex example_externals;
     hexAddPrefix := hexAddPrefix example_externals;
     createType_toHex := createType_toHex example_externals;
     createType_Error := createType_Error example_externals;
     createType_toJSON := fun _ _ data => declared_toJSON data;
     template_string := template_string example_externals;
     destructure_TypeError := destructure_TypeError example_externals;
     NEXT_PUBLIC_WS_ENDPOINT := NEXT_PUBLIC_WS_ENDPOINT example_externals |}.

(** ** Whose certificate is held *)

Section Provenance.

Variable env : Env.
Variable p : GameProps.

(** [c] is what [signCertificate] returns for the account [acc] and the
    signer of [acc]. *)
Definition signed_for (acc : Account) (c : CertificateData) : Prop :=
  exists signer,
    settle env (GetSigner acc) = Resolved signer
    /\ settle env (SignCertificate (api p) (address acc) signer) = Resolved c.

Definition stores_for (a : option Account) {R : Type} (act : action R)
  : Prop :=
  match act with
  | SetCertificateData (Some c) => exists acc, a = Some acc /\ signed_for acc c
  | _ => True
  end.

(** Every certificate the program stores, now or after the promises it
    awaits have settled, is one signed for the account [a]. *)
Fixpoint certifies (a : option Account) (q : prog unit) : Prop :=
  match q with
  | Ret _ | Throw _ => True
  | Do act k => stores_for a act /\ forall r, certifies a (k r)
  | Await c k => certifies a (k (settle env c))
  end.

Definition waits_for (a : option Account) (t : suspended) : Prop :=
  match t with
  | Suspended c k => certifies a (k (settle env c))
  end.

(** No handler awaited stores a certificate, whatever the account. *)
Definition no_signature_awaited (b : Browser) : Prop :=
  Forall (fun t => forall a, waits_for a t) (pending b).

(** The certificate held, and every certificate an awaited handler will
    store, is one signed for the account selected. *)
Definition certificate_of_account (b : Browser) : Prop :=
  (forall c,
      certificateData (game (world b)) = Some c ->
      exists acc,
        account (game (world b)) = Some acc /\ signed_for acc c)
  /\ Forall (waits_for (account (game (world b)))) (pending b).

End Provenance.

(** The browsers reached from the mounted component when the account
    changes only while no signature is awaited. *)
Inductive reached (env : Env) (X : Externals) (p : GameProps)
  : Browser -> Prop :=
| reached_mounted (a : option Account) :
    reached env X p (initial_browser a)
| reached_account (b : Browser) (a : option Account) :
    reached env X p b ->
    no_signature_awaited env p b ->
    reached env X p (dispatch env X p (AccountChanged a) b)
| reached_input (b : Browser) (n : string) :
    reached env X p b ->
    reached env X p (dispatch env X p (InputChanged n) b)
| reached_sign (b : Browser) :
    reached env X p b ->
    reached env X p (dispatch env X p ClickSignCertificate b)
| reached_guess (b : Browser) :
    reached env X p b ->
    reached env X p (dispatch env X p SubmitGuess b)
| reached_reveal (b : Browser) :
    reached env X p b ->
    reached env X p (dispatch env X p ClickReveal b)
| reached_reset (b : Browser) :
    reached env X p b ->
    reached env X p (dispatch env X p ClickReset b)
| reached_settles (b : Browser) (i : nat) :
    reached env X p b ->
    reached env X p (dispatch env X p (Settles i) b).

Definition command_refused : Network :=
  {| getSigner_fails := None; signCertificate_fails := None;
     query_answer := no_answer;
     command_fails := Some (new_Error_msg "Rejected by the chain");
     createApi_fails := None; createPhala_fails := None |}.

(** [Game] in the browser with a certificate held and nothing pending. *)
Definition alice_browser : Browser :=
  {| world := alice_world; pending := []; log := []; unhandled := [] |}.

(** Whether the answer to a guess makes [onGuess] take its 'correct'
    branch: the promise resolved, the response decoded, [ok] is truthy and
    its first key is ['correct']. *)
Definition answers_correct (X : Externals) (p : GameProps)
           (r : settled string) : bool :=
  match r with
  | Resolved data =>
      match decode_response X p data with
      | inr (ok, _) => truthy ok && strict_eq (first_key ok) "correct"
      | inl _ => false
      end
  | Rejected _ => false
  end.

(** * Properties *)

(** ** The three values the page encodes *)

(** The request of a guess fits [GuessNumberRequest]: its [data] names the
    variant [Guess]. *)
Lemma createType_guess_request
      (X : Externals) (a : ApiPromise) (random number : string) :
  createType a "GuessNumberRequest" (guess_request X random number)
  = inr (createType_toHex X a "GuessNumberRequest"
                          (guess_request X random number)).
Proof.
  reflexivity.
Qed.

(** The request of a reveal does not: [GuessNumberRequestData] declares
    QueryOwner, Guess and PeekRandomNumber, and no variant [reveal]. *)
Lemma createType_reveal_request
      (X : Externals) (a : ApiPromise) (random : string) :
  createType a "GuessNumberRequest" (reveal_request X random)
  = inl (createType_Error X "GuessNumberRequest" (reveal_request X random)).
Proof.
  reflexivity.
Qed.

(** The command of a reset fits [GuessNumberCommand]. *)
Lemma createType_NextRandom (X : Externals) (a : ApiPromise) :
  @createType X a "GuessNumberCommand" (JObj [("NextRandom", JNull)])
  = inr (createType_toHex X a "GuessNumberCommand"
                          (JObj [("NextRandom", JNull)])).
Proof.
  reflexivity.
Qed.

(** ** Proof steps *)

(** Lets [createType] return or throw where the goal has reached it. *)
Ltac encode_next :=
  rewrite ?createType_guess_request, ?createType_reveal_request,
    ?createType_NextRandom; cbn.

(** Settles the next awaited call of the goal both ways. *)
Ltac settle_next :=
  match goal with
  | |- context [settle ?e ?c] =>
      let E := fresh "Hsettled" in
      destruct (settle e c) eqn:E; cbn; encode_next
  end.

Ltac handler_cases := cbn; encode_next; repeat settle_next.

(** Follows the decoded response through the branches of a [.then]
    callback. *)
Ltac decode_cases :=
  match goal with
  | |- context [decode_response ?x ?q ?d] =>
      destruct (decode_response x q d) as [?e|[?ok ?err]]; cbn
  end;
  repeat match goal with
         | |- context [if truthy ?v then _ else _] =>
             destruct (truthy v); cbn
         | |- context [if strict_eq ?k ?l then _ else _] =>
             destruct (strict_eq k l); cbn
         end.

Section Properties.

Variable X : Externals.
Variable env : Env.
Variable p : GameProps.

(** ** Guards *)

(** C9: with no certificate, [onGuess] only prevents the default submission
    and [onReveal] does nothing: no query is sent and the state is left as
    it was; with no account selected, [onSignCertificate] and [onReset] do
    nothing. *)
Theorem handlers_guarded (s : GameState) (w : World) :
  (certificateData s = None ->
   run env (onGuess X p s) w = (inr tt, w, [Did PreventDefault])
   /\ run env (onReveal X p s) w = (inr tt, w, []))
  /\ (account s = None ->
      run env (onSignCertificate p s) w = (inr tt, w, [])
      /\ run env (onReset X p s) w = (inr tt, w, [])).
Proof.
  split; intros H.
  - unfold onGuess, onReveal. rewrite H. split; reflexivity.
  - unfold onSignCertificate, onReset. rewrite H. split; reflexivity.
Qed.

(** ** Render *)

(** C7: the step shown by [ProgressSteps] is 1 exactly when a certificate is
    held and 0 exactly when it is not; two states that agree on whether a
    certificate is held show the same step. *)
Theorem Game_current_step (s : GameState) :
  (current (Game_render s) = 1 <-> certificateData s <> None)
  /\ (current (Game_render s) = 0 <-> certificateData s = None)
  /\ (forall s' : GameState,
         (certificateData s = None <-> certificateData s' = None) <->
         current (Game_render s) = current (Game_render s')).
Proof.
  unfold Game_render; cbn.
  split; [|split; [|intros s']].
  - destruct (certificateData s); split; congruence.
  - destruct (certificateData s); split; congruence.
  - destruct (certificateData s), (certificateData s'); cbn;
      intuition congruence.
Qed.

(** ** Signing a certificate *)

(** C3: with an account selected, [onSignCertificate] obtains the signer of
    that account, calls [signCertificate] with the api, the address of the
    account and that signer, stores the certificate returned and shows
    'Certificate signed'; when either step rejects, the certificate held
    stays what it was and the negative toast carries the message. *)
Theorem onSignCertificate_spec (s : GameState) (w : World) (acc : Account) :
  account s = Some acc ->
  let t := trace env (onSignCertificate p s) w in
  let w' := final env (onSignCertificate p s) w in
  (forall signer cert,
      settle env (GetSigner acc) = Resolved signer ->
      settle env (SignCertificate (api p) (address acc) signer)
      = Resolved cert ->
      calls t = [Called (GetSigner acc);
                 Called (SignCertificate (api p) (address acc) signer)]
      /\ certificateData (game w') = Some cert
      /\ shown t = [Positive "Certificate signed"])
  /\ (forall e,
         settle env (GetSigner acc) = Rejected e ->
         certificateData (game w') = certificateData (game w)
         /\ shown t = [Negative (message e)])
  /\ (forall signer e,
         settle env (GetSigner acc) = Resolved signer ->
         settle env (SignCertificate (api p) (address acc) signer)
         = Rejected e ->
         certificateData (game w') = certificateData (game w)
         /\ shown t = [Negative (message e)]).
Proof.
  intros Hacc. unfold trace, final, onSignCertificate. rewrite Hacc.
  repeat split; intros.
  all: cbn; repeat match goal with H : settle _ _ = _ |- _ =>
                                     rewrite H; cbn end; reflexivity.
Qed.

(** ** Loading flags *)

(** C10: whatever the query and the decoding do, a guess started with a
    certificate ends with [guessLoading] false; whatever the two signing
    steps do, [onSignCertificate] started with an account ends with
    [signCertificateLoading] false. *)
Theorem loading_flags_cleared (s : GameState) (w : World) :
  (forall cert,
      certificateData s = Some cert ->
      In (Did (SetGuessLoading true)) (trace env (onGuess X p s) w)
      /\ guessLoading (game (final env (onGuess X p s) w)) = false)
  /\ (forall acc,
         account s = Some acc ->
         In (Did (SetSignCertificateLoading true))
            (trace env (onSignCertificate p s) w)
         /\ signCertificateLoading
              (game (final env (onSignCertificate p s) w)) = false).
Proof.
  split.
  - intros cert Hc. unfold trace, final, onGuess. rewrite Hc.
    handler_cases.
    2: split; [right; left|]; reflexivity.
    unfold onGuess_then.
    destruct (decode_response X p v) as [e|[ok err]]; cbn.
    + split; [right; left|]; reflexivity.
    + destruct (truthy ok); [destruct (strict_eq _ _)|]; cbn;
        destruct (truthy err); cbn; (split; [right; left|]; reflexivity).
  - intros acc Ha. unfold trace, final, onSignCertificate. rewrite Ha.
    handler_cases; (split; [left|]; reflexivity).
Qed.

(** ** Guessing *)

Lemma onGuess_run (s : GameState) (w : World) (cert : CertificateData) :
  certificateData s = Some cert ->
  let encodedQuery :=
    guess_encodedQuery X p (random_source env (draws w) 32) (number s) in
  let w1 := next_draw (with_game (set_guessLoading true) w) in
  let body :=
    finally_
      (catch_
         (data <- match settle env (Query (phala p) encodedQuery cert) with
                  | Resolved v => Ret v
                  | Rejected e => Throw e
                  end ;;
          onGuess_then X p data)
         (fun err => do_ (ToasterNegative (message err))))
      (do_ (SetGuessLoading false)) in
  run env (onGuess X p s) w
  = (fst (fst (run env body w1)), snd (fst (run env body w1)),
     Did PreventDefault :: Did (SetGuessLoading true) :: Did (RandomHex 32)
       :: Called (Query (phala p) encodedQuery cert) :: snd (run env body w1)).
Proof.
  intros Hc. unfold onGuess. rewrite Hc. cbn. encode_next.
  unfold guess_encodedQuery.
  destruct (run env _ _) as [[c w2] t]. reflexivity.
Qed.

(** What [onGuess] does with each answer, by the tests it makes itself: a
    submission handled while a certificate is held sends exactly one query,
    carrying the encoded request and the certificate; it shows the negative
    toast with the message when the query rejects or the response does not
    decode; 'Correct! Number has been reset' when the first key of a truthy
    [ok] is ['correct']; the info toast with the first key of another truthy
    [ok]; the negative toast with the first key of [err] as message when
    [err] is truthy and [ok] is not. *)
Lemma onGuess_query_and_toast
        (s : GameState) (w : World) (cert : CertificateData) :
  certificateData s = Some cert ->
  let encodedQuery :=
    guess_encodedQuery X p (random_source env (draws w) 32) (number s) in
  let t := trace env (onGuess X p s) w in
  queries t = [(phala p, encodedQuery, cert)]
  /\ (forall e,
         settle env (Query (phala p) encodedQuery cert) = Rejected e ->
         shown t = [Negative (message e)])
  /\ (forall data,
         settle env (Query (phala p) encodedQuery cert) = Resolved data ->
         (forall e,
             decode_response X p data = inl e ->
             shown t = [Negative (message e)])
         /\ (forall ok err,
                decode_response X p data = inr (ok, err) ->
                truthy ok = true -> truthy err = false ->
                (first_key ok = Some "correct" ->
                 shown t = [Positive "Correct! Number has been reset"])
                /\ (forall variant,
                       first_key ok = Some variant ->
                       variant <> "correct" ->
                       shown t = [Info (Some variant)]))
         /\ (forall ok err variant,
                decode_response X p data = inr (ok, err) ->
                truthy ok = false -> truthy err = true ->
                first_key err = Some variant ->
                shown t = [Negative variant])).
Proof.
  intros Hc encodedQuery t. subst t. unfold trace.
  rewrite (onGuess_run s w Hc). fold encodedQuery. cbn [snd].
  split; [|split].
  - destruct (settle env (Query (phala p) encodedQuery cert)) as [data|e];
      cbn; [|reflexivity].
    unfold onGuess_then.
    destruct (decode_response X p data) as [e|[ok err]]; cbn; [reflexivity|].
    destruct (truthy ok); [destruct (strict_eq _ _)|]; cbn;
      destruct (truthy err); reflexivity.
  - intros e He. rewrite He. reflexivity.
  - intros data Hd. rewrite Hd. cbn. unfold onGuess_then.
    split; [|split].
    + intros e He. rewrite He. reflexivity.
    + intros ok err He Hok Herr. rewrite He. cbn. rewrite Hok, Herr.
      split.
      * intros Hk. rewrite Hk. reflexivity.
      * intros variant Hk Hne. rewrite Hk. cbn [strict_eq].
        apply String.eqb_neq in Hne. rewrite Hne. reflexivity.
    + intros ok err variant He Hok Herr Hk. rewrite He. cbn.
      rewrite Hok, Herr, Hk. reflexivity.
Qed.

(** C4: the query of a guess is the encoding, as [GuessNumberRequest], of
    the object whose [head.id] is [numberToHex(100, 256)], whose
    [head.nonce] is [hexAddPrefix] of the 32 random bytes drawn by this call
    (one draw per call, so the next call draws anew) and whose [data] is
    [guess] with [guess_number: Number(number)]; the types given to
    [createApi] declare [GuessNumberRequest], [GuessResult] with the
    variants TooLarge, ToSmall and Correct, and [GuessNumberCommand] with
    NextRandom and SetOwner. *)
Theorem guess_request_encoding
        (s : GameState) (w : World) (cert : CertificateData) :
  certificateData s = Some cert ->
  let random := random_source env (draws w) 32 in
  let t := trace env (onGuess X p s) w in
  queries t =
  [(phala p,
    createType_toHex X (api p) "GuessNumberRequest"
      (JObj [("head", JObj [("id", JStr (numberToHex X 100 256));
                            ("nonce", JStr (hexAddPrefix X random))]);
             ("data", JObj [("guess",
                             JObj [("guess_number",
                                    JNum (Number X (number s)))])])]),
    cert)]
  /\ random_draws t = [32%Z]
  /\ draws (final env (onGuess X p s) w) = S (draws w)
  /\ (forall w0 : World,
         exists options rest,
           trace env (GuessNumber_effect X) w0
           = Called (CreateApi options) :: rest
           /\ lookup_type "GuessNumberRequest" (types options)
              = Some (TStruct [("head", "ContractQueryHead");
                               ("data", "GuessNumberRequestData")])
           /\ lookup_type "GuessResult" (types options)
              = Some (TEnum [("TooLarge", None); ("ToSmall", None);
                             ("Correct", None)])
           /\ lookup_type "GuessNumberCommand" (types options)
              = Some (TEnum [("NextRandom", None);
                             ("SetOwner", Some "ContractOwner")])).
Proof.
  intros Hc random t. subst t. unfold trace, final.
  rewrite (onGuess_run s w Hc). cbn [fst snd].
  fold random.
  set (q := Query (phala p) (guess_encodedQuery X p random (number s)) cert).
  assert (Hbody : forall data : settled string,
             let r := run env
                        (finally_
                           (catch_
                              (d <- match data with
                                    | Resolved v => Ret v
                                    | Rejected e => Throw e
                                    end ;;
                               onGuess_then X p d)
                              (fun err => do_ (ToasterNegative (message err))))
                           (do_ (SetGuessLoading false)))
                        (next_draw (with_game (set_guessLoading true) w)) in
             queries (snd r) = [] /\ random_draws (snd r) = []
             /\ draws (snd (fst r)) = S (draws w)).
  { intros [data|e]; cbn; [|auto].
    unfold onGuess_then.
    destruct (decode_response X p data) as [e|[ok err]]; cbn; [auto|].
    destruct (truthy ok); [destruct (strict_eq _ _)|]; cbn;
      destruct (truthy err); cbn; auto. }
  destruct (Hbody (settle env q)) as (Hq & Hr & Hd).
  repeat split.
  - cbn. rewrite Hq. reflexivity.
  - cbn. rewrite Hr. reflexivity.
  - exact Hd.
  - intros w0. unfold GuessNumber_effect. cbn.
    destruct (run env _ w0) as [[c w2] t]. cbn.
    eexists. eexists. split; [reflexivity|].
    cbn. repeat split; reflexivity.
Qed.

(** A response that the declared types render: [ok] is the object keyed by
    the variant of [GuessNumberResponseData], so the first key [onGuess]
    reads is ['guessResult'] whatever the result of the guess.  The info
    toast shows that key, the number typed stays, and the key [onReveal]
    reads, ['randomNumber'], is the one a [RandomNumber] is rendered
    under. *)
Lemma declared_guess_result_shows_key
      (s : GameState) (w : World) (cert : CertificateData)
      (data nonce : string) (r : GuessResult) :
  certificateData s = Some cert ->
  settle env (Query (phala p)
                    (guess_encodedQuery X p (random_source env (draws w) 32)
                                        (number s))
                    cert) = Resolved data ->
  createType_toJSON X (api p) "GuessNumberResponse" (hexAddPrefix X data)
  = inr (ok_response nonce (GuessResultData r)) ->
  shown (trace env (onGuess X p s) w) = [Info (Some "guessResult")]
  /\ number (game (final env (onGuess X p s) w)) = number (game w)
  /\ (forall n : jsnumber X,
         get_prop (ResponseData_toJSON (RandomNumber n)) "randomNumber"
         = JNum n).
Proof.
  intros Hc Hs Hd. unfold trace, final.
  rewrite (onGuess_run s w Hc). cbn [fst snd]. rewrite Hs. cbn.
  unfold onGuess_then, decode_response. rewrite Hd. cbn.
  repeat split.
Qed.

(** ** Channels *)

(** What [onReveal] does with a certificate held: [randomHex] is called for
    the nonce, [createType] throws on [data: {reveal: null}], and the
    handler is left before [toaster.info] and [phala.query]. *)
Lemma onReveal_throws (s : GameState) (w : World) (cert : CertificateData) :
  certificateData s = Some cert ->
  run env (onReveal X p s) w
  = (inl (createType_Error X "GuessNumberRequest"
            (reveal_request X (random_source env (draws w) 32))),
     next_draw w, [Did (RandomHex 32)]).
Proof.
  intros Hc. unfold onReveal. rewrite Hc. cbn. encode_next. reflexivity.
Qed.

(** C5: [onGuess] with a certificate held makes one call, the
    [phala.query] of the encoded guess, and [onReset] sends no query and,
    its signer obtained, one [phala.command]: [NextRandom] encoded as
    [GuessNumberCommand], for contract 100, with the selected account and
    its signer.  [onReveal] sends no command either, but it makes no call at
    all: with a certificate held it throws at [createType] and never reaches
    [phala.query]. *)
Theorem channels_of_the_handlers (s : GameState) (w : World) :
  (forall cert,
      certificateData s = Some cert ->
      calls (trace env (onGuess X p s) w)
      = [Called (Query (phala p)
                   (guess_encodedQuery X p (random_source env (draws w) 32)
                                       (number s))
                   cert)])
  /\ commands (trace env (onGuess X p s) w) = []
  /\ calls (trace env (onReveal X p s) w) = []
  /\ (forall cert,
         certificateData s = Some cert ->
         run env (onReveal X p s) w
         = (inl (createType_Error X "GuessNumberRequest"
                   (reveal_request X (random_source env (draws w) 32))),
            next_draw w, [Did (RandomHex 32)]))
  /\ queries (trace env (onReset X p s) w) = []
  /\ (forall acc signer,
         account s = Some acc ->
         settle env (GetSigner acc) = Resolved signer ->
         commands (trace env (onReset X p s) w)
         = [(phala p,
             {| cmd_account := acc;
                cmd_contractId := 100;
                cmd_payload :=
                  createType_toHex X (api p) "GuessNumberCommand"
                                   (JObj [("NextRandom", JNull)]);
                cmd_signer := signer;
                cmd_onStatus := OnResetStatus (keys w) |})]).
Proof.
  unfold trace.
  split; [|split; [|split; [|split; [|split]]]].
  - intros cert Hc. unfold onGuess. rewrite Hc.
    handler_cases; [unfold onGuess_then; decode_cases|]; reflexivity.
  - unfold onGuess. destruct (certificateData s); [|reflexivity].
    handler_cases; [unfold onGuess_then; decode_cases|]; reflexivity.
  - destruct (certificateData s) as [cert|] eqn:Hc.
    + rewrite (onReveal_throws s w Hc). reflexivity.
    + unfold onReveal. rewrite Hc. reflexivity.
  - intros cert Hc. exact (onReveal_throws s w Hc).
  - unfold onReset. destruct (account s); [|reflexivity].
    handler_cases; reflexivity.
  - intros acc signer Ha Hs. unfold onReset. rewrite Ha. cbn.
    rewrite Hs. cbn. encode_next. settle_next; reflexivity.
Qed.

(** ** Initialisation of the page *)

(** C6: the effect of the page first calls [createApi] with the endpoint of
    [NEXT_PUBLIC_WS_ENDPOINT], then [createPhala] with the api it resolved
    to; the page renders [Game] only when both [api] and [phala] are set,
    with these two values, and the spinner otherwise; when either step
    rejects, the negative toast carries the message and a page on the
    spinner stays on it. *)
Theorem page_initialisation (w : World) :
  let t := trace env (GuessNumber_effect X) w in
  let w' := final env (GuessNumber_effect X) w in
  let create :=
    CreateApi {| endpoint := NEXT_PUBLIC_WS_ENDPOINT X;
                 types := contract_types |} in
  (exists rest, t = Called create :: rest)
  /\ (forall a,
         settle env create = Resolved a ->
         calls t = [Called create; Called (CreatePhala a "/")])
  /\ (forall ps : PageState,
         (page_api ps = None \/ page_phala ps = None ->
          GuessNumber_render ps = ViewSpinner "Initializing")
         /\ (forall a ph,
                page_api ps = Some a -> page_phala ps = Some ph ->
                GuessNumber_render ps = ViewGame {| api := a; phala := ph |}))
  /\ (forall a ph,
         settle env create = Resolved a ->
         settle env (CreatePhala a "/") = Resolved ph ->
         shown t = []
         /\ GuessNumber_render (page w')
            = ViewGame {| api := a; phala := ph |})
  /\ (forall e,
         settle env create = Rejected e ->
         shown t = [Negative (message e)]
         /\ page w' = page w
         /\ (GuessNumber_render (page w) = ViewSpinner "Initializing" ->
             GuessNumber_render (page w') = ViewSpinner "Initializing"))
  /\ (forall a e,
         settle env create = Resolved a ->
         settle env (CreatePhala a "/") = Rejected e ->
         shown t = [Negative (message e)]
         /\ page_phala (page w') = page_phala (page w)
         /\ (page_phala (page w) = None ->
             GuessNumber_render (page w') = ViewSpinner "Initializing")).
Proof.
  unfold trace, final, GuessNumber_effect, createApi_options, baseURL.
  cbn zeta.
  split; [|split; [|split; [|split; [|split]]]].
  - cbn. destruct (run env _ w) as [[c w2] t]. eexists. reflexivity.
  - intros a Ha. cbn. rewrite Ha. cbn. settle_next; reflexivity.
  - intros ps. unfold GuessNumber_render. split.
    + intros [H|H]; rewrite H; [|destruct (page_api ps)]; reflexivity.
    + intros a ph Ha Hp. rewrite Ha, Hp. reflexivity.
  - intros a ph Ha Hp. cbn. rewrite Ha. cbn. rewrite Hp. cbn.
    split; reflexivity.
  - intros e He. cbn. rewrite He. cbn. repeat split. auto.
  - intros a e Ha He. cbn. rewrite Ha. cbn. rewrite He. cbn.
    repeat split. intros Hn. unfold GuessNumber_render. cbn.
    rewrite Hn. reflexivity.
Qed.


(** ** Errors *)

(** [onSignCertificate] and [onGuess] end normally whatever the calls and
    the decoding do: every error raised inside them is caught. *)
Lemma handlers_complete_normally (s : GameState) (w : World) :
  outcome env (onSignCertificate p s) w = inr tt
  /\ outcome env (onGuess X p s) w = inr tt.
Proof.
  unfold outcome. split.
  - unfold onSignCertificate. destruct (account s); [|reflexivity].
    handler_cases; reflexivity.
  - unfold onGuess. destruct (certificateData s); [|reflexivity].
    handler_cases; [unfold onGuess_then; decode_cases|]; reflexivity.
Qed.

(** A command of [onReset] that rejects, the signer having been obtained:
    the pending toast is cleared, the negative toast carries the message,
    the handler ends normally and the [unsubscribe] ref is not written. *)
Lemma onReset_command_rejected
      (s : GameState) (w : World) (acc : Account) (signer : Signer)
      (e : Error) :
  account s = Some acc ->
  settle env (GetSigner acc) = Resolved signer ->
  settle env (Command (phala p) (reset_command X p acc signer (keys w)))
  = Rejected e ->
  run env (onReset X p s) w
  = (inr tt, next_key (next_key w),
     [Did (ToasterInfo (Some "Resetting…") (Some 0%Z));
      Called (GetSigner acc);
      Called (Command (phala p) (reset_command X p acc signer (keys w)));
      Did (ToasterClear (keys w));
      Did (ToasterNegative (message e))]).
Proof.
  intros Ha Hs He. unfold onReset. rewrite Ha. cbn. rewrite Hs. cbn.
  encode_next. fold (reset_command X p acc signer (keys w)).
  rewrite He. reflexivity.
Qed.

(** The signer of [onReset] is awaited outside the [catch]: when
    [getSigner] rejects, the error leaves the handler, the 'Resetting…'
    toast stays and no negative toast is shown. *)
Lemma onReset_signer_rejected
      (s : GameState) (w : World) (acc : Account) (e : Error) :
  account s = Some acc ->
  settle env (GetSigner acc) = Rejected e ->
  run env (onReset X p s) w
  = (inl e, next_key w,
     [Did (ToasterInfo (Some "Resetting…") (Some 0%Z));
      Called (GetSigner acc)]).
Proof.
  intros Ha He. unfold onReset. rewrite Ha. cbn. rewrite He. reflexivity.
Qed.

(** ** The certificate and the account *)

(** The effect on [[account]]: a change of the account leaves no
    certificate, whatever was held. *)
Lemma account_change_resets_certificate (b : Browser) (a : option Account) :
  let b' := dispatch env X p (AccountChanged a) b in
  account (game (world b')) = a
  /\ certificateData (game (world b')) = None
  /\ pending b' = pending b.
Proof.
  cbn. repeat split.
Qed.

(** A signature asked for one account and still awaited when the account
    changes is stored when it arrives: the certificate of the former
    account is then held under the new one. *)
Lemma signature_in_flight_outlives_account
      (b : Browser) (a : Account) (a' : option Account)
      (signer : Signer) (cert : CertificateData) :
  account (game (world b)) = Some a ->
  pending b = [] ->
  settle env (GetSigner a) = Resolved signer ->
  settle env (SignCertificate (api p) (address a) signer) = Resolved cert ->
  let b' := dispatch_all env X p
              [ClickSignCertificate; AccountChanged a'; Settles 0; Settles 0]
              b in
  account (game (world b')) = a'
  /\ certificateData (game (world b')) = Some cert
  /\ pending b' = [].
Proof.
  intros Ha Hp Hs Hc. unfold dispatch_all. cbn [fold_left].
  unfold dispatch, onSignCertificate. rewrite Ha. cbn.
  rewrite Hp. cbn. rewrite Hs. cbn. rewrite Hc. cbn. repeat split.
Qed.

(** *** With no signature in flight *)

Lemma perform_account (R : Type) (a : action R) (w : World) :
  account (game (snd (perform env a w))) = account (game w).
Proof.
  destruct a; reflexivity.
Qed.

Lemma perform_certificate (R : Type) (a : action R) (w : World) :
  certificateData (game (snd (perform env a w)))
  = match a with
    | SetCertificateData c => c
    | _ => certificateData (game w)
    end.
Proof.
  destruct a; reflexivity.
Qed.

Lemma Forall_snoc (A : Type) (P : A -> Prop) (l : list A) (x : A) :
  Forall P l -> P x -> Forall P (l ++ [x]).
Proof.
  intros Hl Hx. apply Forall_app. split; [exact Hl|].
  constructor; [exact Hx|constructor].
Qed.

Lemma take_nth_Forall (A : Type) (P : A -> Prop) (l : list A) :
  Forall P l ->
  forall i x rest, take_nth i l = Some (x, rest) -> P x /\ Forall P rest.
Proof.
  induction 1 as [|y l Hy Hl IH]; intros i x rest Ht.
  - destruct i; discriminate.
  - destruct i as [|i]; cbn in Ht.
    + injection Ht as <- <-. split; assumption.
    + destruct (take_nth i l) as [[z rest']|] eqn:E; [|discriminate].
      injection Ht as <- <-. destruct (IH _ _ _ E) as [Hz Hr].
      split; [exact Hz|]. constructor; assumption.
Qed.

(** Running a program that certifies for the account selected keeps the
    certificate held one of that account. *)
Lemma advance_certifies (q : prog unit) :
  forall b : Browser,
    certifies env p (account (game (world b))) q ->
    certificate_of_account env p b ->
    certificate_of_account env p (advance env q b)
    /\ account (game (world (advance env q b))) = account (game (world b)).
Proof.
  induction q as [u|e|R a k IH|R c k IH]; intros b Hq [Hc Hp]; cbn.
  - split; [split; assumption|reflexivity].
  - split; [split; assumption|reflexivity].
  - destruct Hq as [Ha Hk].
    destruct (perform env a (world b)) as [r w1] eqn:E.
    assert (Hacc : account (game w1) = account (game (world b))).
    { rewrite <- (perform_account a (world b)), E. reflexivity. }
    assert (Hcert : certificateData (game w1)
                    = match a with
                      | SetCertificateData c => c
                      | _ => certificateData (game (world b))
                      end).
    { rewrite <- (perform_certificate a (world b)), E. reflexivity. }
    set (b1 := {| world := w1; pending := pending b;
                  log := log b ++ [Did a]; unhandled := unhandled b |}).
    destruct (IH r b1) as [Hinv Hsame].
    + cbn. rewrite Hacc. apply Hk.
    + split; cbn.
      * rewrite Hacc. intros c0 Hc0. rewrite Hcert in Hc0.
        destruct a; try (apply Hc; exact Hc0).
        subst c. rewrite Hc0 in Ha. exact Ha.
      * rewrite Hacc. exact Hp.
    + split; [exact Hinv|]. rewrite Hsame. exact Hacc.
  - split; [|reflexivity]. split; cbn; [exact Hc|].
    apply Forall_snoc; [exact Hp|exact Hq].
Qed.

(** [onSignCertificate] stores certificates of the account it was started
    for; the other handlers and the input store none. *)
Lemma handlers_certify (s : GameState) :
  certifies env p (account s) (onSignCertificate p s)
  /\ (forall a,
         certifies env p a (onGuess X p s)
         /\ certifies env p a (onReveal X p s)
         /\ certifies env p a (onReset X p s)).
Proof.
  split; [|intros a; split; [|split]].
  - unfold onSignCertificate. destruct (account s) as [acc|]; [|exact I].
    cbn. split; [exact I|]. intros _.
    destruct (settle env (GetSigner acc)) as [signer|e] eqn:Hs; cbn.
    + destruct (settle env (SignCertificate (api p) (address acc) signer))
        as [cert|e] eqn:Hc; cbn.
      * split; [|intros _; split; [exact I|intros _; split; [exact I|]]].
        -- exists acc. split; [reflexivity|]. exists signer. auto.
        -- intros _. exact I.
      * split; [exact I|]. intros _. split; [exact I|intros _; exact I].
    + split; [exact I|]. intros _. split; [exact I|intros _; exact I].
  - unfold onGuess. cbn. split; [exact I|]. intros _.
    destruct (certificateData s); [|exact I]. cbn.
    split; [exact I|]. intros _. split; [exact I|]. intros random.
    encode_next.
    settle_next; [unfold onGuess_then; decode_cases|];
      repeat (split; [exact I|]; intros ?); cbn; try exact I.
  - unfold onReveal. destruct (certificateData s); [|exact I]. cbn.
    split; [exact I|]. intros random. encode_next. exact I.
  - unfold onReset. destruct (account s); [|exact I]. cbn.
    split; [exact I|]. intros toastKey.
    settle_next; [settle_next|];
      repeat (split; [exact I|]; intros ?); cbn; try exact I.
Qed.

(** As long as the account changes only while no signature is awaited, the
    certificate held is one signed for the account selected. *)
Lemma certificate_belongs_to_account (b : Browser) :
  reached env X p b -> certificate_of_account env p b.
Proof.
  induction 1 as [a|b a Hr IH Hq|b n Hr IH|b Hr IH|b Hr IH|b Hr IH|b Hr IH
                  |b i Hr IH].
  - split; cbn; [discriminate|constructor].
  - unfold dispatch, account_effect. cbn. split; cbn.
    + discriminate.
    + unfold no_signature_awaited in Hq.
      apply Forall_forall. intros t Ht.
      rewrite Forall_forall in Hq. apply Hq. exact Ht.
  - apply advance_certifies; [|exact IH]. cbn. auto.
  - apply advance_certifies; [|exact IH]. apply handlers_certify.
  - apply advance_certifies; [|exact IH]. apply handlers_certify.
  - apply advance_certifies; [|exact IH]. apply handlers_certify.
  - apply advance_certifies; [|exact IH]. apply handlers_certify.
  - unfold dispatch.
    destruct (take_nth i (pending b)) as [[[R c k] rest]|] eqn:E;
      [|exact IH].
    destruct IH as [Hc Hp].
    destruct (take_nth_Forall Hp _ E) as [Hk Hrest].
    apply advance_certifies; [exact Hk|]. split; assumption.
Qed.

End Properties.

(** ** Concrete runs *)

Lemma onSignCertificate_spec_witness :
  (certificateData
     (game (final (example_env (network_up no_answer))
                  (onSignCertificate example_props (initial_game (Some bob)))
                  (initial_world (Some bob))))
   = Some {| certificate_handle := 4 |})
  /\ (shown (trace (example_env signer_missing)
                   (onSignCertificate example_props alice_playing)
                   alice_world)
      = [Negative "No signer"])
  /\ (certificateData
        (game (final (example_env signature_refused)
                     (onSignCertificate example_props alice_playing)
                     alice_world))
      = Some alice_certificate).
Proof.
  split; [|split].
  - destruct (onSignCertificate_spec (example_env (network_up no_answer))
                example_props (initial_game (Some bob))
                (initial_world (Some bob)) eq_refl) as (H & _ & _).
    exact (proj1 (proj2 (H _ _ eq_refl eq_refl))).
  - destruct (onSignCertificate_spec (example_env signer_missing)
                example_props alice_playing alice_world eq_refl)
      as (_ & H & _).
    exact (proj2 (H _ eq_refl)).
  - destruct (onSignCertificate_spec (example_env signature_refused)
                example_props alice_playing alice_world eq_refl)
      as (_ & _ & H).
    exact (proj1 (H _ _ eq_refl eq_refl)).
Defined.

Lemma guess_request_encoding_witness :
  queries (trace (example_env (network_up (Resolved "c1")))
                 (onGuess example_externals example_props alice_playing)
                 alice_world)
  = [({| phala_handle := 1 |},
      "GuessNumberRequest{head:{id:0x0000000000000000000000000000000000000000000000000000000000000064,nonce:0x000000000000000000000000000000000000000000000000000000000000000a},data:{guess:{guess_number:0x0000002a}}}",
      alice_certificate)].
Proof.
  exact (proj1 (guess_request_encoding example_externals
                  (example_env (network_up (Resolved "c1"))) example_props
                  alice_playing alice_world eq_refl)).
Defined.

Lemma handlers_guarded_witness :
  run (example_env (network_up no_answer))
      (onGuess example_externals example_props (initial_game (Some alice)))
      alice_world
  = (inr tt, alice_world, [Did PreventDefault])
  /\ run (example_env (network_up no_answer))
         (onReset example_externals example_props (initial_game None))
         alice_world
     = (inr tt, alice_world, []).
Proof.
  split.
  - exact (proj1 (proj1 (handlers_guarded example_externals
                           (example_env (network_up no_answer))
                           example_props (initial_game (Some alice))
                           alice_world) eq_refl)).
  - exact (proj2 (proj2 (handlers_guarded example_externals
                           (example_env (network_up no_answer))
                           example_props (initial_game None)
                           alice_world) eq_refl)).
Defined.

Lemma loading_flags_cleared_witness :
  guessLoading
    (game (final (example_env (network_up (Resolved "ee")))
                 (onGuess example_externals example_props alice_playing)
                 alice_world)) = false
  /\ signCertificateLoading
       (game (final (example_env signature_refused)
                    (onSignCertificate example_props alice_playing)
                    alice_world)) = false.
Proof.
  split.
  - exact (proj2 (proj1 (loading_flags_cleared example_externals
                           (example_env (network_up (Resolved "ee")))
                           example_props alice_playing alice_world)
                        _ eq_refl)).
  - exact (proj2 (proj2 (loading_flags_cleared example_externals
                           (example_env signature_refused)
                           example_props alice_playing alice_world)
                        _ eq_refl)).
Defined.

Lemma page_initialisation_witness :
  (GuessNumber_render
     (page (final (example_env (network_up no_answer))
                  (GuessNumber_effect example_externals)
                  (initial_world None)))
   = ViewGame example_props)
  /\ (shown (trace (example_env node_down)
                   (GuessNumber_effect example_externals)
                   (initial_world None))
      = [Negative "Disconnected"])
  /\ (GuessNumber_render
        (page (final (example_env sdk_down)
                     (GuessNumber_effect example_externals)
                     (initial_world None)))
      = ViewSpinner "Initializing").
Proof.
  split; [|split].
  - destruct (page_initialisation example_externals
                (example_env (network_up no_answer)) (initial_world None))
      as (_ & _ & _ & H & _).
    exact (proj2 (H _ _ eq_refl eq_refl)).
  - destruct (page_initialisation example_externals
                (example_env node_down) (initial_world None))
      as (_ & _ & _ & _ & H & _).
    exact (proj1 (H _ eq_refl)).
  - destruct (page_initialisation example_externals
                (example_env sdk_down) (initial_world None))
      as (_ & _ & _ & _ & _ & H).
    exact (proj2 (proj2 (H _ _ eq_refl eq_refl)) eq_refl).
Defined.

(** C2: in [onReset] the rejection of [getSigner] is not caught: the handler
    ends with the error, the 'Resetting…' toast is the only toast and it is
    never cleared; the same rejection in [onSignCertificate] is caught and
    shown. *)
Theorem onReset_signer_rejection_escapes :
  let env := example_env signer_missing in
  let s := initial_game (Some alice) in
  let w := initial_world (Some alice) in
  run env (onReset example_externals example_props s) w
  = (inl (new_Error_msg "No signer"), next_key w,
     [Did (ToasterInfo (Some "Resetting…") (Some 0%Z));
      Called (GetSigner alice)])
  /\ outcome env (onSignCertificate example_props s) w = inr tt
  /\ shown (trace env (onSignCertificate example_props s) w)
     = [Negative "No signer"].
Proof.
  split; [|split].
  - apply onReset_signer_rejected; reflexivity.
  - apply handlers_complete_normally. exact example_externals.
  - reflexivity.
Qed.

(** C8: alice asks for a certificate, the account changes to bob while the
    signature is awaited, and the signature arrives: the certificate signed
    for alice is held under bob, the second step is shown, and the next
    guess is sent with it. *)
Theorem stale_certificate_after_account_change :
  let env := example_env (network_up (Resolved "c1")) in
  let signed :=
    dispatch_all env example_externals example_props
      [ClickSignCertificate; AccountChanged (Some bob); Settles 0; Settles 0]
      (initial_browser (Some alice)) in
  let guessed :=
    dispatch_all env example_externals example_props
      [InputChanged "42"; SubmitGuess] signed in
  calls (log signed)
  = [Called (GetSigner alice);
     Called (SignCertificate (api example_props) (address alice)
                             {| signer_handle := 6 |})]
  /\ account (game (world signed)) = Some bob
  /\ certificateData (game (world signed)) = Some alice_certificate
  /\ current (Game_render (game (world signed))) = 1
  /\ queries (log guessed)
     = [(phala example_props,
         guess_encodedQuery example_externals example_props
           (random_source env 0 32) "42",
         alice_certificate)].
Proof.
  cbv zeta.
  pose proof (signature_in_flight_outlives_account example_externals
                (example_env (network_up (Resolved "c1"))) example_props
                (initial_browser (Some alice)) (a:=alice) (Some bob)
                eq_refl eq_refl eq_refl eq_refl) as (Ha & Hc & _).
  split; [reflexivity|]. split; [exact Ha|]. split; [exact Hc|].
  split; reflexivity.
Qed.

(** * Further properties of the handlers *)

Section Coverage.

Variable X : Externals.
Variable env : Env.
Variable p : GameProps.

(** ** What a guess writes *)

(** X4: a guess made with a certificate clears the number typed exactly
    when the answer takes the 'correct' branch, and then the Guess button is
    disabled again; otherwise the number stays.  The account, the
    certificate, the signing flag, the [unsubscribe] ref and the state of
    the page are never written by [onGuess]. *)
Theorem onGuess_clears_number_when_correct
        (s : GameState) (w : World) (cert : CertificateData) :
  certificateData s = Some cert ->
  let q := Query (phala p)
                 (guess_encodedQuery X p (random_source env (draws w) 32)
                                     (number s))
                 cert in
  let g := game (final env (onGuess X p s) w) in
  number g = (if answers_correct X p (settle env q) then ""
              else number (game w))
  /\ (answers_correct X p (settle env q) = true ->
      guess_disabled (Game_render g) = true)
  /\ account g = account (game w)
  /\ certificateData g = certificateData (game w)
  /\ signCertificateLoading g = signCertificateLoading (game w)
  /\ unsubscribe g = unsubscribe (game w)
  /\ page (final env (onGuess X p s) w) = page w.
Proof.
  intros Hc q g. subst g. unfold final.
  rewrite (@onGuess_run X env p s w cert Hc). cbn [fst snd]. fold q.
  unfold answers_correct.
  destruct (settle env q) as [data|e]; cbn.
  - unfold onGuess_then.
    destruct (decode_response X p data) as [e|[ok err]]; cbn.
    + repeat split. discriminate.
    + destruct (truthy ok); [destruct (strict_eq _ _)|]; cbn;
        destruct (truthy err); cbn; repeat split; discriminate.
  - repeat split. discriminate.
Qed.

(** ** Resetting *)

(** X5: with the signer obtained, a command of [onReset] that resolves
    leaves the function it resolved to in the [unsubscribe] ref and the
    'Resetting…' toast on screen; a command that rejects leaves the ref as
    it was, clears that toast and shows the message.  The [onStatus]
    closure handed to the command updates that same toast to 'Number has
    been reset' for a finalized status and does nothing for another. *)
Theorem onReset_subscription
        (s : GameState) (w : World) (acc : Account) (signer : Signer) :
  account s = Some acc ->
  settle env (GetSigner acc) = Resolved signer ->
  let args := reset_command X p acc signer (keys w) in
  let start := [Did (ToasterInfo (Some "Resetting…") (Some 0%Z));
                Called (GetSigner acc);
                Called (Command (phala p) args)] in
  (forall u,
      settle env (Command (phala p) args) = Resolved u ->
      run env (onReset X p s) w
      = (inr tt, with_game (set_unsubscribe u) (next_key w),
         (start ++ [Did (SetUnsubscribeRef u)])%list))
  /\ (forall e,
         settle env (Command (phala p) args) = Rejected e ->
         run env (onReset X p s) w
         = (inr tt, next_key (next_key w),
            (start ++ [Did (ToasterClear (keys w));
                       Did (ToasterNegative (message e))])%list))
  /\ (forall (status : Status) (w' : World),
         run env (onStatus (cmd_onStatus args) status) w'
         = (inr tt, w',
            if isFinalized status
            then [Did (ToasterUpdate (keys w) "Number has been reset" 3000)]
            else [])).
Proof.
  intros Ha Hs args start. subst start.
  split; [|split].
  - intros u Hu. unfold onReset. rewrite Ha. cbn. rewrite Hs. cbn.
    encode_next. fold (reset_command X p acc signer (keys w)). fold args.
    rewrite Hu. reflexivity.
  - intros e He. exact (@onReset_command_rejected X env p s w acc signer e Ha Hs He).
  - intros status w'. cbn. destruct (isFinalized status); reflexivity.
Qed.

(** ** Errors that leave a handler *)

(** X6: two errors leave a handler of the page.  [onReset] ends with an
    error exactly when an account is selected and [getSigner] rejects, with
    that error; [onReveal] ends with an error exactly when a certificate is
    held, with what [createType] throws on its request.
    [onSignCertificate], [onGuess] and the effect of the page end normally
    whatever the calls and the decoding do. *)
Theorem errors_that_escape (s : GameState) (w : World) :
  (forall e,
      outcome env (onReset X p s) w = inl e <->
      exists acc,
        account s = Some acc /\ settle env (GetSigner acc) = Rejected e)
  /\ (forall e,
         outcome env (onReveal X p s) w = inl e <->
         certificateData s <> None
         /\ e = createType_Error X "GuessNumberRequest"
                  (reveal_request X (random_source env (draws w) 32)))
  /\ outcome env (onSignCertificate p s) w = inr tt
  /\ outcome env (onGuess X p s) w = inr tt
  /\ outcome env (GuessNumber_effect X) w = inr tt.
Proof.
  split; [|split].
  - intros e. unfold outcome, onReset.
    destruct (account s) as [acc|]; cbn.
    + destruct (settle env (GetSigner acc)) as [signer|e'] eqn:Hs; cbn.
      * encode_next.
        settle_next; (split; [discriminate|]);
          intros (acc' & Ha & Hr); injection Ha as <-; congruence.
      * split.
        -- intros H. injection H as <-. exists acc. auto.
        -- intros (acc' & Ha & Hr). injection Ha as <-.
           rewrite Hs in Hr. congruence.
    + split; [discriminate|]. intros (acc & Ha & _). discriminate.
  - intros e. unfold outcome.
    destruct (certificateData s) as [cert|] eqn:Hc.
    + rewrite (@onReveal_throws X env p s w cert Hc). cbn. split.
      * intros H. injection H as <-. split; [discriminate|reflexivity].
      * intros [_ ->]. reflexivity.
    + unfold onReveal. rewrite Hc. cbn. split; [discriminate|].
      intros [H _]. contradiction.
  - destruct (@handlers_complete_normally X env p s w) as (H1 & H2).
    repeat split; try assumption.
    unfold outcome, GuessNumber_effect. handler_cases; reflexivity.
Qed.

(** ** What the other handlers write *)

(** X7: [onSignCertificate] writes the certificate and its own loading flag
    only, [onReset] the [unsubscribe] ref only, and neither touches the
    state of the page or draws random bytes; the effect of the page writes
    nothing of [Game]. *)
Theorem handlers_write_their_own_state (s : GameState) (w : World) :
  (let w' := final env (onSignCertificate p s) w in
   account (game w') = account (game w)
   /\ number (game w') = number (game w)
   /\ guessLoading (game w') = guessLoading (game w)
   /\ unsubscribe (game w') = unsubscribe (game w)
   /\ page w' = page w /\ draws w' = draws w)
  /\ (let w' := final env (onReset X p s) w in
      account (game w') = account (game w)
      /\ number (game w') = number (game w)
      /\ certificateData (game w') = certificateData (game w)
      /\ signCertificateLoading (game w') = signCertificateLoading (game w)
      /\ guessLoading (game w') = guessLoading (game w)
      /\ page w' = page w /\ draws w' = draws w)
  /\ (let w' := final env (GuessNumber_effect X) w in
      game w' = game w /\ draws w' = draws w).
Proof.
  unfold final. split; [|split].
  - unfold onSignCertificate. destruct (account s); cbn; [|repeat split].
    handler_cases; repeat split.
  - unfold onReset. destruct (account s); cbn; [|repeat split].
    handler_cases; repeat split.
  - unfold GuessNumber_effect. handler_cases; repeat split.
Qed.

(** ** Handlers in the browser *)

Lemma shown_app (l1 l2 : list entry) :
  shown (l1 ++ l2) = (shown l1 ++ shown l2)%list.
Proof.
  induction l1 as [|e l1 IH]; [reflexivity|].
  destruct e as [R a|R c]; [destruct a|]; cbn; rewrite IH; reflexivity.
Qed.

Lemma queries_app (l1 l2 : list entry) :
  queries (l1 ++ l2) = (queries l1 ++ queries l2)%list.
Proof.
  induction l1 as [|e l1 IH]; [reflexivity|].
  destruct e as [R a|R c]; [|destruct c]; cbn; rewrite IH; reflexivity.
Qed.

Lemma take_nth_last (A : Type) (l : list A) (x : A) :
  take_nth (length l) (l ++ [x]) = Some (x, l).
Proof.
  induction l as [|y l IH]; [reflexivity|].
  cbn. rewrite IH. reflexivity.
Qed.

(** ** A click on the reveal button *)

(** X1: in the event loop a click on the reveal button with a certificate
    held draws the random bytes of the nonce and then throws what
    [createType] throws on [data: {reveal: null}]: the error is recorded as
    uncaught, no promise is added, no toast is shown, no query is sent and
    the state of the component is left as it was. *)
Theorem reveal_click_throws (b : Browser) (cert : CertificateData) :
  certificateData (game (world b)) = Some cert ->
  let b' := dispatch env X p ClickReveal b in
  unhandled b'
  = (unhandled b
     ++ [createType_Error X "GuessNumberRequest"
           (reveal_request X (random_source env (draws (world b)) 32))])%list
  /\ pending b' = pending b
  /\ game (world b') = game (world b)
  /\ draws (world b') = S (draws (world b))
  /\ shown (log b') = shown (log b)
  /\ queries (log b') = queries (log b).
Proof.
  intros Hc. unfold dispatch, onReveal. rewrite Hc. cbn. encode_next.
  repeat split.
  - rewrite shown_app, app_nil_r. reflexivity.
  - rewrite queries_app, app_nil_r. reflexivity.
Qed.

Lemma submit_guess_suspends (b : Browser) (cert : CertificateData) :
  certificateData (game (world b)) = Some cert ->
  let q := Query (phala p)
                 (guess_encodedQuery X p
                    (random_source env (draws (world b)) 32)
                    (number (game (world b))))
                 cert in
  dispatch env X p SubmitGuess b
  = {| world := next_draw (with_game (set_guessLoading true) (world b));
       pending :=
         pending b
         ++ [Suspended q
               (fun r =>
                  finally_
                    (catch_
                       (data <- match r with
                                | Resolved v => Ret v
                                | Rejected e => Throw e
                                end ;;
                        onGuess_then X p data)
                       (fun err => do_ (ToasterNegative (message err))))
                    (do_ (SetGuessLoading false)))];
       log := (log b ++ [Did PreventDefault; Did (SetGuessLoading true);
                         Did (RandomHex 32); Called q])%list;
       unhandled := unhandled b |}.
Proof.
  intros Hc. unfold dispatch, onGuess. cbn. rewrite Hc. cbn. encode_next.
  repeat rewrite <- app_assoc. reflexivity.
Qed.

(** X8: a guess submitted with a certificate held, whatever else is
    pending, shows the Guess button loading, adds one pending promise and
    one query and shows no toast yet; when that promise settles the button
    stops loading and the promises pending are those of before. *)
Theorem guess_in_flight (b : Browser) (cert : CertificateData) :
  certificateData (game (world b)) = Some cert ->
  let b1 := dispatch env X p SubmitGuess b in
  let b2 := dispatch env X p (Settles (length (pending b))) b1 in
  guess_isLoading (Game_render (game (world b1))) = true
  /\ length (pending b1) = S (length (pending b))
  /\ shown (log b1) = shown (log b)
  /\ queries (log b1)
     = (queries (log b)
        ++ [(phala p,
             guess_encodedQuery X p (random_source env (draws (world b)) 32)
                                (number (game (world b))),
             cert)])%list
  /\ guess_isLoading (Game_render (game (world b2))) = false
  /\ pending b2 = pending b.
Proof.
  intros Hc. cbv zeta. rewrite (submit_guess_suspends b Hc). cbn zeta.
  split; [reflexivity|].
  split; [cbn; rewrite length_app, Nat.add_comm; reflexivity|].
  split; [cbn; rewrite shown_app, app_nil_r; reflexivity|].
  split; [cbn; rewrite queries_app; reflexivity|].
  unfold dispatch. cbn [pending]. rewrite take_nth_last.
  destruct (settle env _) as [data|e]; cbn; [|split; reflexivity].
  unfold onGuess_then.
  destruct (decode_response X p data) as [e|[ok err]]; cbn;
    [split; reflexivity|].
  destruct (truthy ok); [destruct (strict_eq _ _)|]; cbn;
    destruct (truthy err); cbn; split; reflexivity.
Qed.

Lemma settle_last (b : Browser) (R : Type) (c : call R)
      (k : settled R -> prog unit) (l : list suspended) :
  pending b = (l ++ [Suspended c k])%list ->
  dispatch env X p (Settles (length l)) b
  = advance env (k (settle env c))
            {| world := world b; pending := l; log := log b;
               unhandled := unhandled b |}.
Proof.
  intros H. unfold dispatch. rewrite H, take_nth_last. reflexivity.
Qed.

Lemma click_sign_suspends (b : Browser) (acc : Account) :
  account (game (world b)) = Some acc ->
  dispatch env X p ClickSignCertificate b
  = {| world := with_game (set_signCertificateLoading true) (world b);
       pending :=
         pending b
         ++ [Suspended (GetSigner acc)
               (fun r =>
                  (catch_
                     (signer <- match r with
                                | Resolved v => Ret v
                                | Rejected e => Throw e
                                end ;;
                      cert <- await (SignCertificate (api p) (address acc)
                                                     signer) ;;
                      do_ (SetCertificateData (Some cert)) ;;
                      do_ (ToasterPositive "Certificate signed"))
                     (fun err => do_ (ToasterNegative (message err)))) ;;
                  do_ (SetSignCertificateLoading false))];
       log := (log b ++ [Did (SetSignCertificateLoading true);
                         Called (GetSigner acc)])%list;
       unhandled := unhandled b |}.
Proof.
  intros Ha. unfold dispatch, onSignCertificate. rewrite Ha. cbn.
  repeat rewrite <- app_assoc. reflexivity.
Qed.

(** X9: a click on Sign Certificate with an account selected, whatever
    else is pending, shows the button loading while it awaits the signer;
    when [getSigner] rejects the button stops loading at once and the
    message is shown; when it resolves the button keeps loading while the
    signature is awaited and stops when the signature settles, and the
    promises pending are then those of before. *)
Theorem signature_in_flight (b : Browser) (acc : Account) :
  account (game (world b)) = Some acc ->
  let n := length (pending b) in
  let b1 := dispatch env X p ClickSignCertificate b in
  let b2 := dispatch env X p (Settles n) b1 in
  let b3 := dispatch env X p (Settles n) b2 in
  sign_isLoading (Game_render (game (world b1))) = true
  /\ length (pending b1) = S n
  /\ shown (log b1) = shown (log b)
  /\ (forall e,
         settle env (GetSigner acc) = Rejected e ->
         sign_isLoading (Game_render (game (world b2))) = false
         /\ pending b2 = pending b
         /\ shown (log b2) = (shown (log b) ++ [Negative (message e)])%list)
  /\ (forall signer,
         settle env (GetSigner acc) = Resolved signer ->
         sign_isLoading (Game_render (game (world b2))) = true
         /\ length (pending b2) = S n
         /\ shown (log b2) = shown (log b)
         /\ sign_isLoading (Game_render (game (world b3))) = false
         /\ pending b3 = pending b).
Proof.
  intros Ha. cbv zeta. rewrite (click_sign_suspends b Ha).
  split; [reflexivity|].
  split; [cbn; rewrite length_app, Nat.add_comm; reflexivity|].
  split; [cbn; rewrite shown_app, app_nil_r; reflexivity|].
  split.
  - intros e He. erewrite settle_last by reflexivity.
    rewrite He. cbn. split; [reflexivity|]. split; [reflexivity|].
    repeat rewrite shown_app. cbn. rewrite !app_nil_r. reflexivity.
  - intros signer Hs. erewrite settle_last by reflexivity.
    rewrite Hs. cbn -[dispatch].
    split; [reflexivity|].
    split; [rewrite length_app, Nat.add_comm; reflexivity|].
    split; [repeat rewrite shown_app; cbn; rewrite !app_nil_r; reflexivity|].
    erewrite settle_last by reflexivity.
    destruct (settle env (SignCertificate (api p) (address acc) signer));
      cbn; split; reflexivity.
Qed.

(** ** Queries and the account *)

(** X11: as long as the account changes only while no signature is awaited,
    the certificate held is one signed for the account selected, and the
    query that a guess or a reveal sends, if it sends one, goes to the
    [phala] of the props with a certificate signed for that account. *)
Theorem queries_carry_account_certificate (b : Browser) :
  reached env X p b ->
  (forall c,
      certificateData (game (world b)) = Some c ->
      exists acc,
        account (game (world b)) = Some acc /\ signed_for env p acc c)
  /\ (forall ev,
         ev = SubmitGuess \/ ev = ClickReveal ->
         exists new,
           queries (log (dispatch env X p ev b))
           = (queries (log b) ++ new)%list
           /\ forall ph q c,
               In (ph, q, c) new ->
               ph = phala p
               /\ exists acc,
                   account (game (world b)) = Some acc
                   /\ signed_for env p acc c).
Proof.
  intros Hr.
  destruct (@certificate_belongs_to_account X env p b Hr) as [Hc _].
  split; [exact Hc|].
  intros ev [-> | ->].
  - destruct (certificateData (game (world b))) as [cert|] eqn:E.
    + rewrite (submit_guess_suspends b E). cbn [log].
      rewrite queries_app. cbn. eexists. split; [reflexivity|].
      intros ph q c [H|[]]. injection H as <- _ <-.
      split; [reflexivity|]. apply Hc. reflexivity.
    + unfold dispatch, onGuess. cbn. rewrite E. cbn.
      rewrite queries_app. exists []. split; [reflexivity|].
      intros ph q c [].
  - unfold dispatch, onReveal.
    destruct (certificateData (game (world b))) as [cert|] eqn:E; cbn.
    + encode_next. rewrite queries_app. exists [].
      split; [reflexivity|]. intros ph q c [].
    + exists []. rewrite app_nil_r. split; [reflexivity|].
      intros ph q c [].
Qed.

(** ** Typing, changing the account *)

(** X12: a guess submitted after the number was typed encodes the number
    typed last, which is also the value the input shows, and sends it with
    the certificate held. *)
Theorem typed_number_is_guessed
        (b : Browser) (cert : CertificateData) (n : string) :
  certificateData (game (world b)) = Some cert ->
  let b1 := dispatch env X p (InputChanged n) b in
  let b2 := dispatch env X p SubmitGuess b1 in
  input_value (Game_render (game (world b1))) = n
  /\ guess_disabled (Game_render (game (world b1))) = String.eqb n ""
  /\ queries (log b2)
     = (queries (log b)
        ++ [(phala p,
             guess_encodedQuery X p (random_source env (draws (world b)) 32) n,
             cert)])%list.
Proof.
  intros Hc b1 b2. subst b2.
  assert (Hc1 : certificateData (game (world b1)) = Some cert)
    by exact Hc.
  split; [reflexivity|]. split; [reflexivity|].
  rewrite (submit_guess_suspends b1 Hc1). cbn [log].
  rewrite queries_app. subst b1. cbn. rewrite queries_app, app_nil_r.
  reflexivity.
Qed.

(** X13: a change of the account brings [Game] back to the first step,
    with the Sign Certificate button disabled exactly when no account is
    selected; the number typed, both loading flags, the [unsubscribe] ref
    and the promises pending are kept, and no toast is shown. *)
Theorem account_change_view (b : Browser) (a : option Account) :
  let b' := dispatch env X p (AccountChanged a) b in
  let v := Game_render (game (world b')) in
  current v = 0
  /\ (sign_disabled v = true <-> a = None)
  /\ input_value v = number (game (world b))
  /\ sign_isLoading v = signCertificateLoading (game (world b))
  /\ guess_isLoading v = guessLoading (game (world b))
  /\ unsubscribe (game (world b')) = unsubscribe (game (world b))
  /\ pending b' = pending b
  /\ shown (log b') = shown (log b).
Proof.
  cbn. repeat split.
  - destruct a; [discriminate|reflexivity].
  - intros ->. reflexivity.
  - rewrite shown_app, app_nil_r. reflexivity.
Qed.

(** ** The page between its two steps *)

(** X14: once [createApi] has resolved the page holds the api and still
    shows the spinner while [createPhala] is awaited; when [createPhala]
    then rejects, the api stays stored, the page stays on the spinner and
    the message is shown; when it resolves, the page renders [Game] with
    that api and the phala created from it. *)
Theorem page_between_steps (b : Browser) (a : ApiPromise) :
  page_phala (page (world b)) = None ->
  settle env (CreateApi (createApi_options X)) = Resolved a ->
  let n := length (pending b) in
  let b1 := advance env (GuessNumber_effect X) b in
  let b2 := dispatch env X p (Settles n) b1 in
  let b3 := dispatch env X p (Settles n) b2 in
  page (world b1) = page (world b)
  /\ page_api (page (world b2)) = Some a
  /\ GuessNumber_render (page (world b2)) = ViewSpinner "Initializing"
  /\ (forall e,
         settle env (CreatePhala a baseURL) = Rejected e ->
         page_api (page (world b3)) = Some a
         /\ GuessNumber_render (page (world b3)) = ViewSpinner "Initializing"
         /\ shown (log b3) = (shown (log b) ++ [Negative (message e)])%list
         /\ pending b3 = pending b)
  /\ (forall ph,
         settle env (CreatePhala a baseURL) = Resolved ph ->
         GuessNumber_render (page (world b3))
         = ViewGame {| api := a; phala := ph |}
         /\ shown (log b3) = shown (log b)
         /\ pending b3 = pending b).
Proof.
  intros Hn Ha. cbv zeta. unfold GuessNumber_effect. cbn [advance catch_ bind await].
  split; [reflexivity|].
  erewrite settle_last by reflexivity. rewrite Ha. cbn -[dispatch].
  split; [reflexivity|].
  split; [unfold GuessNumber_render; cbn; rewrite Hn; reflexivity|].
  split.
  - intros e He. erewrite settle_last by reflexivity. rewrite He. cbn.
    split; [reflexivity|].
    split; [unfold GuessNumber_render; cbn; rewrite Hn; reflexivity|].
    split; [|reflexivity].
    repeat rewrite shown_app. cbn. rewrite !app_nil_r. reflexivity.
  - intros ph Hp. erewrite settle_last by reflexivity. rewrite Hp. cbn.
    split; [reflexivity|]. split; [|reflexivity].
    repeat rewrite shown_app. cbn. rewrite !app_nil_r. reflexivity.
Qed.

End Coverage.

(** ** Concrete runs of the further properties *)

Lemma onGuess_clears_number_when_correct_witness :
  number (game (final (example_env (network_up (Resolved "c0")))
                      (onGuess example_externals example_props alice_playing)
                      alice_world)) = ""
  /\ number (game (final (example_env (network_up (Resolved "c1")))
                         (onGuess example_externals example_props
                                  alice_playing)
                         alice_world)) = "42".
Proof.
  split.
  - exact (proj1 (@onGuess_clears_number_when_correct example_externals
                    (example_env (network_up (Resolved "c0"))) example_props
                    alice_playing alice_world alice_certificate eq_refl)).
  - exact (proj1 (@onGuess_clears_number_when_correct example_externals
                    (example_env (network_up (Resolved "c1"))) example_props
                    alice_playing alice_world alice_certificate eq_refl)).
Defined.

Lemma onReset_subscription_witness :
  unsubscribe
    (game (final (example_env (network_up no_answer))
                 (onReset example_externals example_props alice_playing)
                 alice_world))
  = Some {| unsubscribe_handle := 1 |}
  /\ shown (trace (example_env command_refused)
                  (onReset example_externals example_props alice_playing)
                  alice_world)
     = [Info (Some "Resetting…"); Negative "Rejected by the chain"].
Proof.
  unfold final, trace. split.
  - destruct (@onReset_subscription example_externals
                (example_env (network_up no_answer)) example_props
                alice_playing alice_world alice {| signer_handle := 6 |}
                eq_refl eq_refl) as (H & _ & _).
    rewrite (H _ eq_refl). reflexivity.
  - destruct (@onReset_subscription example_externals
                (example_env command_refused) example_props
                alice_playing alice_world alice {| signer_handle := 6 |}
                eq_refl eq_refl) as (_ & H & _).
    rewrite (H _ eq_refl). reflexivity.
Defined.

Lemma guess_in_flight_witness :
  guess_isLoading
    (Game_render
       (game (world (dispatch (example_env (network_up (Resolved "c1")))
                              example_externals example_props SubmitGuess
                              alice_browser)))) = true
  /\ guess_isLoading
       (Game_render
          (game (world (dispatch_all
                          (example_env (network_up (Resolved "c1")))
                          example_externals example_props
                          [SubmitGuess; Settles 0] alice_browser)))) = false.
Proof.
  destruct (@guess_in_flight example_externals
              (example_env (network_up (Resolved "c1"))) example_props
              alice_browser alice_certificate eq_refl)
    as (H1 & _ & _ & _ & H2 & _).
  split; [exact H1|exact H2].
Defined.

Lemma signature_in_flight_witness :
  sign_isLoading
    (Game_render
       (game (world (dispatch_all (example_env signature_refused)
                                  example_externals example_props
                                  [ClickSignCertificate; Settles 0]
                                  alice_browser)))) = true
  /\ sign_isLoading
       (Game_render
          (game (world (dispatch_all (example_env signature_refused)
                                     example_externals example_props
                                     [ClickSignCertificate; Settles 0;
                                      Settles 0]
                                     alice_browser)))) = false.
Proof.
  destruct (@signature_in_flight example_externals
              (example_env signature_refused) example_props
              alice_browser alice eq_refl) as (_ & _ & _ & _ & H).
  destruct (H {| signer_handle := 6 |} eq_refl) as (H2 & _ & _ & H3 & _).
  split; [exact H2|exact H3].
Defined.

Lemma queries_carry_account_certificate_witness :
  exists acc,
    account
      (game (world (dispatch_all (example_env (network_up no_answer))
                                 example_externals example_props
                                 [ClickSignCertificate; Settles 0; Settles 0]
                                 (initial_browser (Some bob)))))
    = Some acc
    /\ signed_for (example_env (network_up no_answer)) example_props acc
                  {| certificate_handle := 4 |}.
Proof.
  exact (proj1 (@queries_carry_account_certificate example_externals
                  (example_env (network_up no_answer)) example_props _
                  (reached_settles 0
                     (reached_settles 0
                        (reached_sign
                           (reached_mounted
                              (example_env (network_up no_answer))
                              example_externals example_props
                              (Some bob))))))
               _ eq_refl).
Defined.

Lemma typed_number_is_guessed_witness :
  queries (log (dispatch_all (example_env (network_up (Resolved "c1")))
                             example_externals example_props
                             [InputChanged "7"; SubmitGuess] alice_browser))
  = [({| phala_handle := 1 |},
      "GuessNumberRequest{head:{id:0x0000000000000000000000000000000000000000000000000000000000000064,nonce:0x000000000000000000000000000000000000000000000000000000000000000a},data:{guess:{guess_number:0x00000007}}}",
      alice_certificate)].
Proof.
  exact (proj2 (proj2 (@typed_number_is_guessed example_externals
                         (example_env (network_up (Resolved "c1")))
                         example_props alice_browser alice_certificate "7"
                         eq_refl))).
Defined.

Lemma page_between_steps_witness :
  GuessNumber_render
    (page (world (dispatch_all (example_env sdk_down) example_externals
                               example_props [Settles 0]
                               (advance (example_env sdk_down)
                                        (GuessNumber_effect example_externals)
                                        (initial_browser None)))))
  = ViewSpinner "Initializing"
  /\ page_api
       (page (world (dispatch_all (example_env sdk_down) example_externals
                                  example_props [Settles 0; Settles 0]
                                  (advance (example_env sdk_down)
                                           (GuessNumber_effect
                                              example_externals)
                                           (initial_browser None)))))
     = Some {| api_handle := 1 |}.
Proof.
  destruct (@page_between_steps example_externals (example_env sdk_down)
              example_props (initial_browser None) {| api_handle := 1 |}
              eq_refl eq_refl) as (_ & _ & H2 & H3 & _).
  split; [exact H2|]. exact (proj1 (H3 _ eq_refl)).
Defined.

(** C1: a guess answered Correct, decoded as the declared types render it:
    one query is sent, but [ok] is [{guessResult: 'Correct'}], its first key
    is not ['correct'], and the toast shown is the info toast 'guessResult';
    'Correct! Number has been reset' is not shown and the number typed is
    not cleared.  A guess answered TooLarge shows the same info toast, which
    does not name the variant. *)
Theorem correct_guess_shows_wrapper_key :
  let correct := example_env (network_up (Resolved "c0")) in
  let too_large := example_env (network_up (Resolved "c1")) in
  let guess := onGuess declared_externals example_props alice_playing in
  createType_toJSON declared_externals (api example_props)
                    "GuessNumberResponse" "0xc0"
  = inr (JObj [("nonce", JStr "0x00");
               ("result",
                JObj [("ok", JObj [("guessResult", JStr "Correct")])])])
  /\ length (queries (trace correct guess alice_world)) = 1
  /\ shown (trace correct guess alice_world) = [Info (Some "guessResult")]
  /\ number (game (final correct guess alice_world)) = "42"
  /\ shown (trace too_large guess alice_world) = [Info (Some "guessResult")].
Proof.
  cbv zeta.
  destruct (@declared_guess_result_shows_key declared_externals
              (example_env (network_up (Resolved "c0"))) example_props
              alice_playing alice_world alice_certificate "c0" "0x00" Correct
              eq_refl eq_refl eq_refl) as (Hshown & Hnumber & _).
  destruct (@declared_guess_result_shows_key declared_externals
              (example_env (network_up (Resolved "c1"))) example_props
              alice_playing alice_world alice_certificate "c1" "0x00"
              TooLarge eq_refl eq_refl eq_refl) as (Hlarge & _ & _).
  split; [reflexivity|]. split; [reflexivity|].
  split; [exact Hshown|]. split; [exact Hnumber|exact Hlarge].
Qed.

Lemma channels_of_the_handlers_witness :
  run (example_env (network_up (Resolved "2a")))
      (onReveal example_externals example_props alice_playing) alice_world
  = (inl (new_Error_msg
            "createType(GuessNumberRequest): {head:{id:0x0000000000000000000000000000000000000000000000000000000000000064,nonce:0x000000000000000000000000000000000000000000000000000000000000000a},data:{reveal:null}}"),
     next_draw alice_world, [Did (RandomHex 32)])
  /\ calls (trace (example_env (network_up (Resolved "c1")))
                  (onGuess example_externals example_props alice_playing)
                  alice_world)
     = [Called (Query {| phala_handle := 1 |}
                  "GuessNumberRequest{head:{id:0x0000000000000000000000000000000000000000000000000000000000000064,nonce:0x000000000000000000000000000000000000000000000000000000000000000a},data:{guess:{guess_number:0x0000002a}}}"
                  alice_certificate)].
Proof.
  split.
  - destruct (channels_of_the_handlers example_externals
                (example_env (network_up (Resolved "2a"))) example_props
                alice_playing alice_world) as (_ & _ & _ & H & _).
    exact (H _ eq_refl).
  - destruct (channels_of_the_handlers example_externals
                (example_env (network_up (Resolved "c1"))) example_props
                alice_playing alice_world) as (H & _).
    exact (H _ eq_refl).
Defined.

Lemma reveal_click_throws_witness :
  unhandled (dispatch (example_env (network_up (Resolved "2a")))
                      example_externals example_props ClickReveal
                      alice_browser)
  = [new_Error_msg
       "createType(GuessNumberRequest): {head:{id:0x0000000000000000000000000000000000000000000000000000000000000064,nonce:0x000000000000000000000000000000000000000000000000000000000000000a},data:{reveal:null}}"]
  /\ pending (dispatch (example_env (network_up (Resolved "2a")))
                       example_externals example_props ClickReveal
                       alice_browser) = [].
Proof.
  destruct (@reveal_click_throws example_externals
              (example_env (network_up (Resolved "2a"))) example_props
              alice_browser alice_certificate eq_refl) as (H1 & H2 & _).
  split; [exact H1|exact H2].
Defined.
